(** * The real-time detection pipeline of yolov12-onnxruntime-web

    A shallow embedding of the page component ([Home], with its
    [startProcessing], [detectLoop], [stopProcessing], [togglePause],
    [handleExport], [handleReset] and [handleClearVideo] handlers) and of
    [lib/types.ts], together with the collaborators the page drives
    ([VideoProcessor], the coordinate mapping of the overlay).

    JavaScript numbers are modelled exactly: integer-valued ones (counts,
    epoch milliseconds) as [Z], the others (coordinates, confidences) as
    canonical rationals [Qc], so IEEE rounding is outside the model.  The
    JavaScript event loop is modelled by explicit events: every handler and
    every stretch of [detectLoop] between two suspension points runs
    atomically, as on the single JavaScript thread. *)

From Stdlib Require Import ZArith QArith Qcanon Ascii String List Lia Field.
From stdpp Require Import base numbers gmap strings list pretty.

Open Scope Z_scope.

(** ** lib/types.ts *)

Module Types.

Record Detection := {
  x : Qc;
  y : Qc;
  width : Qc;
  height : Qc;
  confidence : Qc;
  class : string
}.

Record DetectionStats := {
  totalDetections : Z;
  averageConfidence : Qc;
  lastDetectionTime : Z;
  classCounts : gmap string Z
}.

Record ModelMetadata := {
  inputSize : Qc * Qc;
  classes : list string;
  confidenceThreshold : Qc;
  nmsThreshold : Qc
}.

End Types.

Import Types.

(** The object literal [{ totalDetections: 0, averageConfidence: 0,
    lastDetectionTime: 0, classCounts: {} }], written out three times in the
    page (initial state, [handleClearVideo], [handleReset]). *)
Definition zeroStats : DetectionStats :=
  {| totalDetections := 0;
     averageConfidence := 0%Qc;
     lastDetectionTime := 0;
     classCounts := ∅ |}.

(** A frame handed to the detector (an [ImageData] in the browser); only its
    identity matters here. *)
Inductive ImageData := frame (index : nat).

(** ** DetectionAggregator *)

(** Modelled from the spec: [sum(batchConfidences)] of section 4.2. *)
Definition sumConfidences (batch : list Detection) : Qc :=
  foldr (fun d acc => (confidence d + acc)%Qc) 0%Qc batch.

(** Modelled from the spec: the per-detection increment of [classCounts],
    its key created on first occurrence. *)
Definition countClass (counts : gmap string Z) (d : Detection) : gmap string Z :=
  <[class d := default 0 (counts !! class d) + 1]> counts.

(** Modelled from the spec: the aggregator's [ingest] lives in
    lib/video-processor, which is not among the sources.  Section 4.2:
    update [totalDetections], recompute [averageConfidence] as
    [oldAvg + (sum(batchConfidences) - oldAvg*batchSize) / newTotal] guarded
    against [newTotal == 0], increment [classCounts] per detection, update
    [lastDetectionTime] only if the batch is non-empty. *)
Definition ingest (s : DetectionStats) (now : Z) (batch : list Detection)
  : DetectionStats :=
  let batchSize := Z.of_nat (length batch) in
  let newTotal := totalDetections s + batchSize in
  let oldAvg := averageConfidence s in
  {| totalDetections := newTotal;
     averageConfidence :=
       if newTotal =? 0 then oldAvg
       else (oldAvg + (sumConfidences batch - oldAvg * Qc_of_Z batchSize)
                      / Qc_of_Z newTotal)%Qc;
     lastDetectionTime :=
       match batch with [] => lastDetectionTime s | _ :: _ => now end;
     classCounts := foldl countClass (classCounts s) batch |}.

(** ** CoordinateMapper *)




(** ** VideoProcessor *)

(** What a [VideoProcessor] tells the page: the two callbacks given to its
    constructor. *)
Inductive Callback :=
| OnDetections (newDetections : list Detection)
| OnStats (newStats : DetectionStats).

Module VideoProcessor.

(** Modelled from the spec: the scheduler states of section 4.1 that the
    processor itself goes through.  Pausing is kept by the page in its
    [isPaused] cell and never passed on, so the processor has no Paused
    state of its own. *)
Inductive State := Idle | Running | Stopped.

(** Modelled from the spec: the class [VideoProcessor] of
    lib/video-processor is not among the sources; only its uses in the page
    are.  Its state is the scheduler-owned part of a Session: the borrowed
    video, the scheduler state, the last published batch, the batches
    published so far (for the export) and the aggregator's statistics. *)
Record t := {
  video : bool;
  state : State;
  current : list Detection;
  published : list (list Detection);
  stats : DetectionStats
}.

(** Modelled from the spec: [new VideoProcessor(onDetections, onStats)]
    starts Idle with zeroed statistics and nothing published. *)
Definition new : t :=
  {| video := false; state := Idle; current := [];
     published := []; stats := zeroStats |}.

(** Modelled from the spec: [setVideo] borrows the FrameSource. *)
Definition setVideo (p : t) : t :=
  {| video := true; state := state p; current := current p;
     published := published p; stats := stats p |}.

(** Modelled from the spec: [startProcessing] takes Idle to Running; a
    Running processor stays as it is and Stopped is terminal. *)
Definition startProcessing (p : t) : t :=
  {| video := video p;
     state := match state p with Idle => Running | s => s end;
     current := current p; published := published p; stats := stats p |}.

(** Modelled from the spec: [stopProcessing] enters Stopped; neither the
    last batch nor the statistics are touched (section 4.1, [stop()]). *)
Definition stopProcessing (p : t) : t :=
  {| video := video p; state := Stopped; current := current p;
     published := published p; stats := stats p |}.

(** Modelled from the spec: whether the processor has reached Stopped. *)
Definition isProcessingStopped (p : t) : bool :=
  match state p with Stopped => true | _ => false end.

(** Modelled from the spec: [FrameSource.currentFrame()] returns the latest
    decoded frame or nothing; [available] is what the video element holds
    at the time of the call. *)
Definition getCurrentFrame (p : t) (available : option ImageData)
  : option ImageData :=
  if video p then available else None.

(** Modelled from the spec: the completion step of section 4.1 (5).  If the
    state has become Stopped the result is discarded; otherwise the batch
    replaces the prior one, is fed to the aggregator, and batch and
    statistics are published through the constructor's callbacks. *)
Definition updateDetections (p : t) (now : Z) (newDetections : list Detection)
  : t * list Callback :=
  if isProcessingStopped p then (p, [])
  else
    let s := ingest (stats p) now newDetections in
    ({| video := video p; state := state p;
        current := newDetections;
        published := published p ++ [newDetections];
        stats := s |},
     [OnDetections newDetections; OnStats s]).

(** Modelled from the spec: [reset()] clears the aggregator and the
    last-published batch without altering the scheduler state. *)
Definition reset (p : t) : t :=
  {| video := video p; state := state p; current := [];
     published := published p; stats := zeroStats |}.

(** Modelled from the spec: all batches published this session. *)
Definition exportDetections (p : t) : list (list Detection) := published p.

(** Modelled from the spec: a snapshot of the current statistics. *)
Definition exportStats (p : t) : DetectionStats := stats p.

End VideoProcessor.

(** ** The page component *)

(** One run of the self-rescheduling [detectLoop]: suspended at the [await]
    with the submitted frame, waiting for the animation frame it requested,
    or ended. *)
Inductive Loop :=
| Awaiting (submitted : ImageData)
| Scheduled
| Ended.

Inductive ConsoleEntry :=
| ConsoleLog (message : string)
| ConsoleError (message : string).

(** What [detectObjects] settles with. *)
Inductive Settlement :=
| Resolved (newDetections : list Detection)
| Rejected (err : string).

(** The state of [Home]: its [useState] cells and refs, and around them the
    part of the browser the handlers act on: the detect loops alive in the
    event loop, the console, and the frames handed to [detectObjects]. *)
Record Home := {
  selectedFile : option string;
  isProcessing : bool;
  isPaused : bool;
  detections : list Detection;
  stats : DetectionStats;
  error : option string;
  isCameraActive : bool;
  videoRef : bool;
  detectorRef : bool;
  processorRef : option VideoProcessor.t;
  loops : list Loop;
  console : list ConsoleEntry;
  detectCalls : list ImageData
}.

Definition setSelectedFile (v : option string) (st : Home) : Home :=
  {| selectedFile := v; isProcessing := isProcessing st;
     isPaused := isPaused st; detections := detections st; stats := stats st;
     error := error st; isCameraActive := isCameraActive st;
     videoRef := videoRef st; detectorRef := detectorRef st;
     processorRef := processorRef st; loops := loops st;
     console := console st; detectCalls := detectCalls st |}.

Definition setIsProcessing (v : bool) (st : Home) : Home :=
  {| selectedFile := selectedFile st; isProcessing := v;
     isPaused := isPaused st; detections := detections st; stats := stats st;
     error := error st; isCameraActive := isCameraActive st;
     videoRef := videoRef st; detectorRef := detectorRef st;
     processorRef := processorRef st; loops := loops st;
     console := console st; detectCalls := detectCalls st |}.

Definition setIsPaused (v : bool) (st : Home) : Home :=
  {| selectedFile := selectedFile st; isProcessing := isProcessing st;
     isPaused := v; detections := detections st; stats := stats st;
     error := error st; isCameraActive := isCameraActive st;
     videoRef := videoRef st; detectorRef := detectorRef st;
     processorRef := processorRef st; loops := loops st;
     console := console st; detectCalls := detectCalls st |}.

Definition setDetections (v : list Detection) (st : Home) : Home :=
  {| selectedFile := selectedFile st; isProcessing := isProcessing st;
     isPaused := isPaused st; detections := v; stats := stats st;
     error := error st; isCameraActive := isCameraActive st;
     videoRef := videoRef st; detectorRef := detectorRef st;
     processorRef := processorRef st; loops := loops st;
     console := console st; detectCalls := detectCalls st |}.

Definition setStats (v : DetectionStats) (st : Home) : Home :=
  {| selectedFile := selectedFile st; isProcessing := isProcessing st;
     isPaused := isPaused st; detections := detections st; stats := v;
     error := error st; isCameraActive := isCameraActive st;
     videoRef := videoRef st; detectorRef := detectorRef st;
     processorRef := processorRef st; loops := loops st;
     console := console st; detectCalls := detectCalls st |}.

Definition setError (v : option string) (st : Home) : Home :=
  {| selectedFile := selectedFile st; isProcessing := isProcessing st;
     isPaused := isPaused st; detections := detections st; stats := stats st;
     error := v; isCameraActive := isCameraActive st;
     videoRef := videoRef st; detectorRef := detectorRef st;
     processorRef := processorRef st; loops := loops st;
     console := console st; detectCalls := detectCalls st |}.

Definition setProcessorRef (v : option VideoProcessor.t) (st : Home) : Home :=
  {| selectedFile := selectedFile st; isProcessing := isProcessing st;
     isPaused := isPaused st; detections := detections st; stats := stats st;
     error := error st; isCameraActive := isCameraActive st;
     videoRef := videoRef st; detectorRef := detectorRef st;
     processorRef := v; loops := loops st;
     console := console st; detectCalls := detectCalls st |}.

Definition setLoops (v : list Loop) (st : Home) : Home :=
  {| selectedFile := selectedFile st; isProcessing := isProcessing st;
     isPaused := isPaused st; detections := detections st; stats := stats st;
     error := error st; isCameraActive := isCameraActive st;
     videoRef := videoRef st; detectorRef := detectorRef st;
     processorRef := processorRef st; loops := v;
     console := console st; detectCalls := detectCalls st |}.

Definition consoleWrite (e : ConsoleEntry) (st : Home) : Home :=
  {| selectedFile := selectedFile st; isProcessing := isProcessing st;
     isPaused := isPaused st; detections := detections st; stats := stats st;
     error := error st; isCameraActive := isCameraActive st;
     videoRef := videoRef st; detectorRef := detectorRef st;
     processorRef := processorRef st; loops := loops st;
     console := console st ++ [e]; detectCalls := detectCalls st |}.

(** [detectorRef.current.detectObjects(frame)] is called: the frame is
    submitted to the inference client. *)
Definition detectObjects (f : ImageData) (st : Home) : Home :=
  {| selectedFile := selectedFile st; isProcessing := isProcessing st;
     isPaused := isPaused st; detections := detections st; stats := stats st;
     error := error st; isCameraActive := isCameraActive st;
     videoRef := videoRef st; detectorRef := detectorRef st;
     processorRef := processorRef st; loops := loops st;
     console := console st; detectCalls := detectCalls st ++ [f] |}.

(** The page before anything happened: the initial [useState] values, refs
    unset. *)
Definition initialHome : Home :=
  {| selectedFile := None; isProcessing := false; isPaused := false;
     detections := []; stats := zeroStats; error := None;
     isCameraActive := false; videoRef := false; detectorRef := false;
     processorRef := None; loops := []; console := []; detectCalls := [] |}.

(** The page once the detector is initialised and a video is mounted. *)
Definition readyHome : Home :=
  {| selectedFile := Some "clip.mp4"%string; isProcessing := false;
     isPaused := false; detections := []; stats := zeroStats; error := None;
     isCameraActive := false; videoRef := true; detectorRef := true;
     processorRef := None; loops := []; console := []; detectCalls := [] |}.

(** The first callback given to [new VideoProcessor]:
    [(newDetections) => { console.log(...); setDetections(newDetections) }]. *)
Definition onDetectionsUpdate (newDetections : list Detection) (st : Home) : Home :=
  setDetections newDetections
    (consoleWrite
       (ConsoleLog ("Displaying " +:+ pretty (length newDetections)
                    +:+ " detections for current frame"))
       st).

(** The second callback: [(newStats) => { setStats(newStats) }]. *)
Definition onStatsUpdate (newStats : DetectionStats) (st : Home) : Home :=
  setStats newStats st.

Definition runCallback (st : Home) (c : Callback) : Home :=
  match c with
  | OnDetections ds => onDetectionsUpdate ds st
  | OnStats s => onStatsUpdate s st
  end.

Definition setLoop (i : nat) (l : Loop) (st : Home) : Home :=
  setLoops (<[i := l]> (loops st)) st.

(** The end of [detectLoop]:
    [if (processorRef.current && !processorRef.current.isProcessingStopped())
       requestAnimationFrame(detectLoop)]. *)
Definition detectLoop_continue (i : nat) (st : Home) : Home :=
  match processorRef st with
  | Some p =>
      if VideoProcessor.isProcessingStopped p then setLoop i Ended st
      else setLoop i Scheduled st
  | None => setLoop i Ended st
  end.

(** [detectLoop] from its entry to its first suspension point: the guard on
    the refs, the frame pull, and the submission if there is a frame.
    [available] is what the video element holds when the loop runs. *)
Definition detectLoop_enter (i : nat) (available : option ImageData) (st : Home)
  : Home :=
  if negb (detectorRef st) then setLoop i Ended st
  else
    match processorRef st with
    | None => setLoop i Ended st
    | Some p =>
        match VideoProcessor.getCurrentFrame p available with
        | Some f => setLoop i (Awaiting f) (detectObjects f st)
        | None => detectLoop_continue i st
        end
    end.

(** [detectLoop] from the settlement of the awaited call to its end: the
    update of the processor, or the [catch], then the rescheduling.  A
    [processorRef.current] that is null makes the call throw, which the same
    [catch] absorbs. *)
Definition detectLoop_resume (i : nat) (r : Settlement) (now : Z) (st : Home)
  : Home :=
  let st' :=
    match r with
    | Resolved newDetections =>
        match processorRef st with
        | Some p =>
            let '(p', callbacks) :=
              VideoProcessor.updateDetections p now newDetections in
            foldl runCallback (setProcessorRef (Some p') st) callbacks
        | None =>
            consoleWrite (ConsoleError "Detection error: TypeError") st
        end
    | Rejected err =>
        consoleWrite (ConsoleError ("Detection error: " +:+ err)) st
    end in
  detectLoop_continue i st'.

(** [startProcessing]: the guard on the refs, the three state updates, a new
    [VideoProcessor] with the video set and started, stored in
    [processorRef], and a first, synchronous call of a new [detectLoop]. *)
Definition startProcessing (available : option ImageData) (st : Home) : Home :=
  if negb (detectorRef st) || negb (videoRef st) then st
  else
    let st1 := setError None (setIsPaused false (setIsProcessing true st)) in
    let processor :=
      VideoProcessor.startProcessing
        (VideoProcessor.setVideo VideoProcessor.new) in
    let st2 := setProcessorRef (Some processor) st1 in
    let i := length (loops st2) in
    detectLoop_enter i available (setLoops (loops st2 ++ [Scheduled]) st2).

(** [stopProcessing]. *)
Definition stopProcessing (st : Home) : Home :=
  let st1 := setIsPaused false (setIsProcessing false st) in
  match processorRef st1 with
  | Some p => setProcessorRef (Some (VideoProcessor.stopProcessing p)) st1
  | None => st1
  end.

(** [togglePause]: [setIsPaused(!isPaused)], nothing else. *)
Definition togglePause (st : Home) : Home :=
  setIsPaused (negb (isPaused st)) st.

(** [handleReset]. *)
Definition handleReset (st : Home) : Home :=
  let st1 := setStats zeroStats (setDetections [] st) in
  match processorRef st1 with
  | Some p => setProcessorRef (Some (VideoProcessor.reset p)) st1
  | None => st1
  end.

(** [handleClearVideo]. *)
Definition handleClearVideo (st : Home) : Home :=
  let st1 :=
    setStats zeroStats (setDetections [] (setSelectedFile None st)) in
  match processorRef st1 with
  | Some p => setProcessorRef (Some (VideoProcessor.reset p)) st1
  | None => st1
  end.

(** What can happen to the page: the clicks of the user, an animation frame
    requested by loop [i] coming due, and the call awaited by loop [i]
    settling at time [now]. *)
Inductive Event :=
| StartClick (available : option ImageData)
| StopClick
| PauseClick
| ResetClick
| ClearVideoClick
| AnimationFrame (i : nat) (available : option ImageData)
| InferenceSettled (i : nat) (r : Settlement) (now : Z).

(** An animation frame only comes for a loop that requested one, and a
    settlement only for a loop that awaits one; elsewhere these events cannot
    occur and leave the page as it is. *)
Definition step (st : Home) (e : Event) : Home :=
  match e with
  | StartClick available => startProcessing available st
  | StopClick => stopProcessing st
  | PauseClick => togglePause st
  | ResetClick => handleReset st
  | ClearVideoClick => handleClearVideo st
  | AnimationFrame i available =>
      match loops st !! i with
      | Some Scheduled => detectLoop_enter i available st
      | _ => st
      end
  | InferenceSettled i r now =>
      match loops st !! i with
      | Some (Awaiting _) => detectLoop_resume i r now st
      | _ => st
      end
  end.

Definition run (st : Home) (events : list Event) : Home := foldl step st events.

Definition countLoops (f : Loop -> bool) (ls : list Loop) : nat :=
  length (filter (fun l => f l = true) ls).

(** The inference calls submitted and not yet settled. *)
Definition isAwaiting (l : Loop) : bool :=
  match l with Awaiting _ => true | _ => false end.

Definition outstanding (st : Home) : nat := countLoops isAwaiting (loops st).

(** The detect loops that have not ended: awaiting their call or their
    animation frame. *)
Definition isAlive (l : Loop) : bool :=
  match l with Ended => false | _ => true end.

Definition alive (st : Home) : nat := countLoops isAlive (loops st).

Definition isStart (e : Event) : bool :=
  match e with StartClick _ => true | _ => false end.

(** The events that neither start a loop nor settle a call: the ticks and
    the stop, pause, reset and clear commands. *)
Definition isQuiet (e : Event) : bool :=
  match e with
  | StartClick _ | InferenceSettled _ _ _ => false
  | _ => true
  end.

(** In the run [events] from [st], every [start()] comes when no detect loop
    of an earlier [start()] is alive any more. *)
Fixpoint startsWhenIdle (st : Home) (events : list Event) : bool :=
  match events with
  | [] => true
  | e :: rest =>
      (if isStart e then Nat.eqb (alive st) 0 else true)
      && startsWhenIdle (step st e) rest
  end.

(** ** Export *)

(** [Date.prototype.toISOString], for the years 0000 to 9999 where it has
    the form [YYYY-MM-DDTHH:mm:ss.sssZ]; the argument is the time value, in
    milliseconds since the epoch. *)
Definition digitChar (v : Z) : ascii :=
  ascii_of_nat (48 + Z.to_nat (v mod 10)).

Fixpoint padDigits (n : nat) (v : Z) (rest : string) : string :=
  match n with
  | O => rest
  | S n' => padDigits n' (v / 10) (String (digitChar v) rest)
  end.

(** Year, month and day of a day count since 1970-01-01 (proleptic
    Gregorian calendar). *)
Definition civilFromDays (days : Z) : Z * Z * Z :=
  let z := days + 719468 in
  let era := z / 146097 in
  let doe := z mod 146097 in
  let yoe := (doe - doe / 1460 + doe / 36524 - doe / 146096) / 365 in
  let doy := doe - (365 * yoe + yoe / 4 - yoe / 100) in
  let mp := (5 * doy + 2) / 153 in
  let d := doy - (153 * mp + 2) / 5 + 1 in
  let m := if mp <? 10 then mp + 3 else mp - 9 in
  let y := yoe + era * 400 + (if m <=? 2 then 1 else 0) in
  (y, m, d).

Definition toISOString (t : Z) : string :=
  let '(y, m, d) := civilFromDays (t / 86400000) in
  let ms := t mod 86400000 in
  padDigits 4 y
    (String "-" (padDigits 2 m
    (String "-" (padDigits 2 d
    (String "T" (padDigits 2 (ms / 3600000)
    (String ":" (padDigits 2 (ms / 60000 mod 60)
    (String ":" (padDigits 2 (ms / 1000 mod 60)
    (String "." (padDigits 3 (ms mod 1000) "Z")))))))))))).





Module ExportDoc.

(** The object literal [{ detections, stats, timestamp }] that
    [handleExport] serialises. *)
Record Data := {
  detections : list (list Detection);
  stats : DetectionStats;
  timestamp : string
}.

(** The download: the [download] attribute of the anchor and the document
    in the blob. *)
Record File := { download : string; data : Data }.

End ExportDoc.

(** [handleExport]; [date] is the time value of [new Date()] and [now] the
    result of the later [Date.now()]. *)
Definition handleExport (date now : Z) (st : Home) : option ExportDoc.File :=
  match processorRef st with
  | None => None
  | Some p =>
      let allDetections := VideoProcessor.exportDetections p in
      let data :=
        {| ExportDoc.detections := allDetections;
           ExportDoc.stats := VideoProcessor.exportStats p;
           ExportDoc.timestamp := toISOString date |} in
      Some {| ExportDoc.download := "object-detections-" +:+ pretty now +:+ ".json";
              ExportDoc.data := data |}
  end.

(** What a session goes through between its creation and an export: batches
    published at their completion times, and resets. *)
Inductive SessionOp :=
| Publish (now : Z) (batch : list Detection)
| ResetStats.



Definition aggregate (s : DetectionStats) (op : SessionOp) : DetectionStats :=
  match op with
  | Publish now batch => ingest s now batch
  | ResetStats => zeroStats
  end.



(** Sample data for the concrete runs below. *)
Definition car : Detection :=
  {| x := 0%Qc; y := 0%Qc; width := 1%Qc; height := 1%Qc;
     confidence := Q2Qc (9 # 10); class := "car" |}.

Definition person : Detection :=
  {| x := Qc_of_Z 2; y := Qc_of_Z 3; width := Qc_of_Z 4; height := Qc_of_Z 5;
     confidence := Q2Qc (7 # 10); class := "person" |}.

Definition dimCar : Detection :=
  {| x := 1%Qc; y := 1%Qc; width := Qc_of_Z 2; height := Qc_of_Z 2;
     confidence := Q2Qc (5 # 10); class := "car" |}.



(** ** Runs of the page *)

(** No processor, or one that has been stopped. *)
Definition sessionStopped (st : Home) : Prop :=
  match processorRef st with
  | Some p => VideoProcessor.isProcessingStopped p = true
  | None => True
  end.

(** [start()], [stop()] during the call, [start()] again before it resolves. *)
Definition restarted : Home :=
  run readyHome
    [StartClick (Some (frame 0)); StopClick; StartClick (Some (frame 1))].

(** The same, and then the call of the first session resolves, empty, while
    the call of the second is in flight. *)
Definition restartedFirstSettled : Home :=
  step restarted (InferenceSettled 0 (Resolved []) 1000).

(** A restart in good order: the call of the first session settles after
    [stop()] and its loop ends before [start()] is invoked again. *)
Definition orderlyRestart : list Event :=
  [StartClick (Some (frame 0)); StopClick;
   InferenceSettled 0 (Resolved [car]) 1000; StartClick (Some (frame 1))].

(** Ticks and a command while the call of the second session is in flight. *)
Definition ticksAndCommands : list Event :=
  [AnimationFrame 1 (Some (frame 2)); PauseClick;
   AnimationFrame 0 (Some (frame 3))].

(** [start()], then [pause()] during the call, which then resolves. *)
Definition pausedInFlight : Home :=
  run readyHome
    [StartClick (Some (frame 0)); PauseClick;
     InferenceSettled 0 (Resolved [car]) 1000].

(** [start()] once, the first call still in flight. *)
Definition running : Home := run readyHome [StartClick (Some (frame 0))].

(** The first call resolved with one detection, a second call in flight. *)
Definition showingCar : Home :=
  run readyHome
    [StartClick (Some (frame 0)); InferenceSettled 0 (Resolved [car]) 1000;
     AnimationFrame 0 (Some (frame 1))].

(** ** The rest of the page: refs, rendering, video and camera *)

Definition setIsCameraActive (v : bool) (st : Home) : Home :=
  {| selectedFile := selectedFile st; isProcessing := isProcessing st;
     isPaused := isPaused st; detections := detections st; stats := stats st;
     error := error st; isCameraActive := v;
     videoRef := videoRef st; detectorRef := detectorRef st;
     processorRef := processorRef st; loops := loops st;
     console := console st; detectCalls := detectCalls st |}.

Definition setVideoRef (v : bool) (st : Home) : Home :=
  {| selectedFile := selectedFile st; isProcessing := isProcessing st;
     isPaused := isPaused st; detections := detections st; stats := stats st;
     error := error st; isCameraActive := isCameraActive st;
     videoRef := v; detectorRef := detectorRef st;
     processorRef := processorRef st; loops := loops st;
     console := console st; detectCalls := detectCalls st |}.

Definition setDetectorRef (v : bool) (st : Home) : Home :=
  {| selectedFile := selectedFile st; isProcessing := isProcessing st;
     isPaused := isPaused st; detections := detections st; stats := stats st;
     error := error st; isCameraActive := isCameraActive st;
     videoRef := videoRef st; detectorRef := v;
     processorRef := processorRef st; loops := loops st;
     console := console st; detectCalls := detectCalls st |}.

(** The [initDetector] effect when the page mounts, up to its [await]. *)
Definition initDetector_begin (st : Home) : Home :=
  consoleWrite (ConsoleLog "Initializing AI detector...") st.

(** The [initDetector] effect once [detector.initialize()] has resolved:
    [detectorRef.current = detector; setError(null); console.log(...)]. *)
Definition initDetector_resolved (st : Home) : Home :=
  consoleWrite (ConsoleLog "AI detector initialized successfully")
    (setError None (setDetectorRef true st)).

(** The same effect when the constructor or [initialize()] throws: the
    [catch] logs and sets the error; [detectorRef] is not assigned. *)
Definition initDetector_rejected (err : string) (st : Home) : Home :=
  setError
    (Some "Failed to initialize AI detector. Please check that the model file is available.")
    (consoleWrite (ConsoleError ("Failed to initialize AI detector: " +:+ err)) st).

(** The condition [(selectedFile || isCameraActive) && (...)] under which the
    JSX renders the preview: the video element, the overlay and the three
    control buttons. *)
Definition previewShown (st : Home) : bool :=
  match selectedFile st with Some _ => true | None => false end
  || isCameraActive st.

(** [disabled={!selectedFile && !isCameraActive}] of the Start button. *)
Definition startDisabled (st : Home) : bool :=
  negb (match selectedFile st with Some _ => true | None => false end)
  && negb (isCameraActive st).

(** [disabled={!isProcessing}] of the Pause and the Stop button. *)
Definition pauseDisabled (st : Home) : bool := negb (isProcessing st).
Definition stopDisabled (st : Home) : bool := negb (isProcessing st).

(** The label of the pause button: [isPaused ? Resume : Pause]. *)
Definition pauseLabel (st : Home) : string :=
  if isPaused st then "Resume" else "Pause".

(** Whether the browser delivers the event: a click needs its button to be
    rendered and not disabled.  The reset and clear buttons live in
    components that are not among the sources and are taken as always
    available. *)
Definition deliverable (st : Home) (e : Event) : bool :=
  match e with
  | StartClick _ => previewShown st && negb (startDisabled st)
  | StopClick => previewShown st && negb (stopDisabled st)
  | PauseClick => previewShown st && negb (pauseDisabled st)
  | _ => true
  end.

Definition stepUI (st : Home) (e : Event) : Home :=
  if deliverable st e then step st e else st.

Definition runUI (st : Home) (events : list Event) : Home :=
  foldl stepUI st events.

(** The part of the video element the page reads and writes. *)
Inductive VideoSource := EmptySource | ObjectURL (file : string).

Record MediaStream := { streamId : nat; trackIds : list nat }.

Module VideoElement.

Record t := {
  src : VideoSource;
  srcObject : option MediaStream;
  playCalls : nat;
  videoWidth : N;
  videoHeight : N
}.

(** A video element as React mounts it: no source, no metadata. *)
Definition fresh : t :=
  {| src := EmptySource; srcObject := None; playCalls := 0;
     videoWidth := 0%N; videoHeight := 0%N |}.

Definition setSrc (v : VideoSource) (e : t) : t :=
  {| src := v; srcObject := srcObject e; playCalls := playCalls e;
     videoWidth := videoWidth e; videoHeight := videoHeight e |}.

Definition setSrcObject (v : option MediaStream) (e : t) : t :=
  {| src := src e; srcObject := v; playCalls := playCalls e;
     videoWidth := videoWidth e; videoHeight := videoHeight e |}.

Definition play (e : t) : t :=
  {| src := src e; srcObject := srcObject e; playCalls := S (playCalls e);
     videoWidth := videoWidth e; videoHeight := videoHeight e |}.

Definition setSize (w h : N) (e : t) : t :=
  {| src := src e; srcObject := srcObject e; playCalls := playCalls e;
     videoWidth := w; videoHeight := h |}.

End VideoElement.

(** The props [videoWidth={videoRef.current?.videoWidth || 640}] and
    [videoHeight={videoRef.current?.videoHeight || 480}] of the overlay;
    [current] is [videoRef.current] when the page renders.  A missing element
    and a zero are both falsy. *)
Definition overlayWidth (current : option VideoElement.t) : N :=
  match current with
  | Some v => if (VideoElement.videoWidth v =? 0)%N then 640%N
              else VideoElement.videoWidth v
  | None => 640%N
  end.

Definition overlayHeight (current : option VideoElement.t) : N :=
  match current with
  | Some v => if (VideoElement.videoHeight v =? 0)%N then 480%N
              else VideoElement.videoHeight v
  | None => 480%N
  end.

(** The timers [handleCameraStart] sets: the closure [setStreamToVideo] over
    its stream, and the delayed [play()]. *)
Inductive Timer :=
| SetStreamToVideo (stream : MediaStream)
| PlayVideo.

(** The page with the browser objects around it: the video element that
    [videoRef] points to while one is mounted ([videoRef (home s)] tells),
    [streamRef], the tracks that have been stopped, and the pending timers. *)
Record Stage := {
  home : Home;
  element : VideoElement.t;
  streamRef : option MediaStream;
  stoppedTracks : gset nat;
  timers : list Timer
}.

Definition setHome (h : Home) (s : Stage) : Stage :=
  {| home := h; element := element s; streamRef := streamRef s;
     stoppedTracks := stoppedTracks s; timers := timers s |}.

Definition setElement (e : VideoElement.t) (s : Stage) : Stage :=
  {| home := home s; element := e; streamRef := streamRef s;
     stoppedTracks := stoppedTracks s; timers := timers s |}.

Definition setStreamRef (v : option MediaStream) (s : Stage) : Stage :=
  {| home := home s; element := element s; streamRef := v;
     stoppedTracks := stoppedTracks s; timers := timers s |}.

Definition setStoppedTracks (v : gset nat) (s : Stage) : Stage :=
  {| home := home s; element := element s; streamRef := streamRef s;
     stoppedTracks := v; timers := timers s |}.

Definition setTimers (v : list Timer) (s : Stage) : Stage :=
  {| home := home s; element := element s; streamRef := streamRef s;
     stoppedTracks := stoppedTracks s; timers := v |}.

Definition initialStage : Stage :=
  {| home := initialHome; element := VideoElement.fresh; streamRef := None;
     stoppedTracks := ∅; timers := [] |}.

(** [if (videoRef.current) { ... }]: the guarded writes to the element. *)
Definition withVideo (f : VideoElement.t -> VideoElement.t) (s : Stage) : Stage :=
  if videoRef (home s) then setElement (f (element s)) s else s.

(** [handleVideoSelect]. *)
Definition handleVideoSelect (file : string) (s : Stage) : Stage :=
  withVideo (VideoElement.setSrc (ObjectURL file))
    (setHome (setError None (setSelectedFile (Some file) (home s))) s).

(** [handleClearVideo], with its write to the element between the state
    updates and the reset of the processor. *)
Definition handleClearVideo_stage (s : Stage) : Stage :=
  withVideo (VideoElement.setSrc EmptySource)
    (setHome (handleClearVideo (home s)) s).

(** [handleCameraStart]: the ref, the two state updates and the first timer
    (the definition of [setStreamToVideo] is in [fireTimer]). *)
Definition handleCameraStart (stream : MediaStream) (s : Stage) : Stage :=
  let h := consoleWrite (ConsoleLog "handleCameraStart called with stream:")
             (home s) in
  let s1 := setStreamRef (Some stream) (setHome h s) in
  let s2 := setHome (setError None (setIsCameraActive true (home s1))) s1 in
  setTimers (timers s2 ++ [SetStreamToVideo stream]) s2.

(** A timer comes due.  [setStreamToVideo]: with an element, clear and set
    [srcObject] and set the play timer; without one, log and set itself
    again.  The play timer: [play()] if there is an element with a
    [srcObject]. *)
Definition fireTimer (k : nat) (s : Stage) : Stage :=
  match timers s !! k with
  | None => s
  | Some (SetStreamToVideo stream) =>
      let s1 := setTimers (delete k (timers s)) s in
      if videoRef (home s1) then
        let h := consoleWrite (ConsoleLog "Setting stream to video element")
                   (home s1) in
        let e := VideoElement.setSrcObject (Some stream)
                   (VideoElement.setSrcObject None (element s1)) in
        setTimers (timers s1 ++ [PlayVideo]) (setElement e (setHome h s1))
      else
        let h := consoleWrite
                   (ConsoleLog "Video element not ready yet, retrying...")
                   (home s1) in
        setTimers (timers s1 ++ [SetStreamToVideo stream]) (setHome h s1)
  | Some PlayVideo =>
      let s1 := setTimers (delete k (timers s)) s in
      if videoRef (home s1)
         && match VideoElement.srcObject (element s1) with
            | Some _ => true
            | None => false
            end
      then
        let h := consoleWrite (ConsoleLog "Attempting to play video")
                   (home s1) in
        setElement (VideoElement.play (element s1)) (setHome h s1)
      else s1
  end.

(** [handleCameraStop]. *)
Definition handleCameraStop (s : Stage) : Stage :=
  let s1 :=
    match streamRef s with
    | Some stream =>
        setStreamRef None
          (setStoppedTracks (stoppedTracks s ∪ list_to_set (trackIds stream)) s)
    | None => s
    end in
  let s2 := setHome (setIsCameraActive false (home s1)) s1 in
  withVideo (VideoElement.setSrcObject None) s2.

(** The [.catch] of the two [play()] calls, the one of the camera effect
    and the one of the play timer: they log differently and set the same
    error. *)
Definition playRejected (fromEffect : bool) (message : string) (s : Stage)
  : Stage :=
  let entry :=
    if fromEffect
    then ConsoleError "Error playing video after element became available:"
    else ConsoleError "Error playing video:" in
  setHome
    (setError (Some ("Failed to start camera preview: " +:+ message))
       (consoleWrite entry (home s)))
    s.

(** [onLoadedMetadata]: the element has its native size; the handler logs
    it. *)
Definition loadedMetadata (w h : N) (s : Stage) : Stage :=
  if videoRef (home s) then
    setHome
      (consoleWrite
         (ConsoleLog ("Video dimensions: " +:+ pretty w +:+ "x" +:+ pretty h))
         (home s))
      (setElement (VideoElement.setSize w h (element s)) s)
  else s.

(** React commits the render that follows a handler: the video element is
    mounted when the preview comes to be shown and unmounted when it goes. *)
Definition commit (s : Stage) : Stage :=
  if previewShown (home s) then
    if videoRef (home s) then s
    else setElement VideoElement.fresh (setHome (setVideoRef true (home s)) s)
  else setHome (setVideoRef false (home s)) s.

(** The effect on [[isCameraActive]]: with the camera active, a stream and an
    element, attach the stream and play. *)
Definition cameraEffect (s : Stage) : Stage :=
  if isCameraActive (home s)
     && match streamRef s with Some _ => true | None => false end
     && videoRef (home s)
  then
    let h := consoleWrite
               (ConsoleLog "Video element became available, setting stream")
               (home s) in
    setElement
      (VideoElement.play
         (VideoElement.setSrcObject (streamRef s) (element s)))
      (setHome h s)
  else s.

(** After a handler: the commit, and the camera effect if [isCameraActive]
    is not what it was before the handler. *)
Definition afterHandler (before : Stage) (s : Stage) : Stage :=
  let s1 := commit s in
  if Bool.eqb (isCameraActive (home before)) (isCameraActive (home s1)) then s1
  else cameraEffect s1.

Inductive StageEvent :=
| PageMounted
| DetectorInitialized
| DetectorFailed (err : string)
| SelectVideo (file : string)
| CameraStart (stream : MediaStream)
| CameraStop
| TimerFired (k : nat)
| PlayRejected (fromEffect : bool) (message : string)
| MetadataLoaded (w h : N)
| Page (e : Event).

Definition stageStep (s : Stage) (e : StageEvent) : Stage :=
  match e with
  | PageMounted => setHome (initDetector_begin (home s)) s
  | DetectorInitialized => setHome (initDetector_resolved (home s)) s
  | DetectorFailed err => setHome (initDetector_rejected err (home s)) s
  | SelectVideo file => afterHandler s (handleVideoSelect file s)
  | CameraStart stream => afterHandler s (handleCameraStart stream s)
  | CameraStop => afterHandler s (handleCameraStop s)
  | TimerFired k => fireTimer k s
  | PlayRejected fromEffect message => playRejected fromEffect message s
  | MetadataLoaded w h => loadedMetadata w h s
  | Page ClearVideoClick => afterHandler s (handleClearVideo_stage s)
  | Page e => setHome (stepUI (home s) e) s
  end.

Definition stageRun (s : Stage) (events : list StageEvent) : Stage :=
  foldl stageStep s events.

Definition isSetStreamToVideo (t : Timer) : bool :=
  match t with SetStreamToVideo _ => true | PlayVideo => false end.

Definition isTimerFired (e : StageEvent) : bool :=
  match e with TimerFired _ => true | _ => false end.

(** The polls for the video element that are pending. *)
Definition pendingPolls (s : Stage) : nat :=
  length (filter (fun t => isSetStreamToVideo t = true) (timers s)).

(** Sample streams and stages. *)
Definition webcam : MediaStream := {| streamId := 1; trackIds := [10; 11]%nat |}.

(** The flags and refs that only the click handlers write. *)
Definition flags (st : Home) :=
  (selectedFile st, isProcessing st, isPaused st, error st,
   isCameraActive st, videoRef st, detectorRef st).

(** The pipeline as long as it has never started. *)
Definition neverStarted (st : Home) : Prop :=
  processorRef st = None /\ loops st = [].

(** The page is paused only while it processes, and processes only with a
    processor. *)
Definition flagsConsistent (st : Home) : Prop :=
  (isPaused st = true -> isProcessing st = true) /\
  (isProcessing st = true -> is_Some (processorRef st)).

(** Clicks around the pause button, some of them on a disabled button. *)
Definition clicksAroundPause : list Event :=
  [PauseClick; StartClick (Some (frame 0)); PauseClick; StopClick; PauseClick].

(** A file is selected twice (the second selection finds the video element),
    then the camera is started on top of it. *)
Definition cameraOverFile : Stage :=
  stageRun initialStage
    [SelectVideo "clip.mp4"; SelectVideo "clip.mp4"; CameraStart webcam].

(** A file selected (twice, so that the video has it as its source) on a
    page with an initialised detector, and processing started. *)
Definition processingFile : Stage :=
  stageRun initialStage
    [DetectorInitialized; SelectVideo "clip.mp4"; SelectVideo "clip.mp4";
     Page (StartClick (Some (frame 0)))].

(** A session stopped during its first call, which then resolves. *)
Definition stoppedAndSettled : list Event :=
  [StartClick (Some (frame 0)); StopClick;
   InferenceSettled 0 (Resolved [car]) 1000].

(** What may still come afterwards. *)
Definition lateEvents : list Event :=
  [AnimationFrame 0 (Some (frame 1)); InferenceSettled 0 (Resolved [car]) 2000;
   ResetClick; PauseClick; AnimationFrame 0 (Some (frame 2))].

(** ** The theme toggle *)

Module ThemeToggle.

(** JavaScript truthiness of a [string | undefined]: [undefined] and the
    empty string are falsy. *)
Definition truthy (v : option string) : bool :=
  match v with
  | Some s => negb (String.eqb s "")
  | None => false
  end.

(** [a || b] with a string for [b]. *)
Definition orElse (a : option string) (b : string) : string :=
  match a with
  | Some s => if truthy a then s else b
  | None => b
  end.

(** [resolvedTheme || theme || "light"]. *)
Definition currentTheme (resolvedTheme theme : option string) : string :=
  orElse resolvedTheme (orElse theme "light").

(** [toggleTheme]: the argument it passes to [setTheme]. *)
Definition toggleTheme (resolvedTheme theme : option string) : string :=
  if String.eqb (currentTheme resolvedTheme theme) "dark" then "light"
  else "dark".

(** The component: its [mounted] cell and whether the timer of its effect is
    pending. *)
Record t := { mounted : bool; timerPending : bool }.


(** The timer comes due: [setMounted(true)]. *)
Definition timerFired (c : t) : t :=
  if timerPending c then {| mounted := true; timerPending := false |} else c.

(** The clean-up of the effect: [clearTimeout(timer)]. *)
Definition cleanup (c : t) : t :=
  {| mounted := mounted c; timerPending := false |}.


(** What happens to the component after its first render: its timer comes
    due, or it is unmounted. *)
Inductive Event := Timeout | Unmount.

Definition step (c : t) (e : Event) : t :=
  match e with
  | Timeout => timerFired c
  | Unmount => cleanup c
  end.

Definition run (c : t) (events : list Event) : t := foldl step c events.

End ThemeToggle.

(** ** Basic facts about the handlers *)

(** The click handlers branch on [processorRef.current] only. *)
Ltac handler_cases h st :=
  unfold h; simpl;
  destruct (processorRef st) as [?p|] eqn:?Hp; simpl; rewrite ?Hp; auto.

Lemma loops_runCallbacks callbacks st :
  loops (foldl runCallback st callbacks) = loops st.
Proof.
  revert st. induction callbacks as [|c callbacks IH]; intros st; [reflexivity|].
  simpl. rewrite IH. destruct c; reflexivity.
Qed.

(** Each stretch of [detectLoop] writes the slot of its own loop and no
    other. *)
Lemma loops_continue i st :
  exists l, loops (detectLoop_continue i st) = <[i := l]> (loops st).
Proof.
  unfold detectLoop_continue.
  destruct (processorRef st) as [p|];
    [destruct (VideoProcessor.isProcessingStopped p)|]; simpl; eauto.
Qed.

Lemma loops_enter i available st :
  exists l, loops (detectLoop_enter i available st) = <[i := l]> (loops st).
Proof.
  unfold detectLoop_enter.
  destruct (negb (detectorRef st)); [simpl; eauto|].
  destruct (processorRef st) as [p|]; [|simpl; eauto].
  destruct (VideoProcessor.getCurrentFrame p available); [simpl; eauto|].
  apply loops_continue.
Qed.

Lemma loops_resume i r now st :
  exists l, loops (detectLoop_resume i r now st) = <[i := l]> (loops st).
Proof.
  unfold detectLoop_resume.
  match goal with |- context [detectLoop_continue i ?s] =>
    destruct (loops_continue i s) as [l ->];
    assert (Hl : loops s = loops st); [|rewrite Hl; eauto] end.
  destruct r as [ds|err]; [|reflexivity].
  destruct (processorRef st) as [p|]; [|reflexivity].
  destruct (VideoProcessor.updateDetections p now ds) as [p' callbacks].
  rewrite loops_runCallbacks. reflexivity.
Qed.

(** ** At most one inference in flight *)

Lemma countLoops_cons f l ls :
  countLoops f (l :: ls) = ((if f l then 1 else 0) + countLoops f ls)%nat.
Proof.
  unfold countLoops. rewrite filter_cons.
  destruct (f l) eqn:Hl.
  - rewrite decide_True by reflexivity. reflexivity.
  - rewrite decide_False by discriminate. reflexivity.
Qed.

Lemma countLoops_app f ls ls' :
  countLoops f (ls ++ ls') = (countLoops f ls + countLoops f ls')%nat.
Proof. unfold countLoops. rewrite filter_app, length_app. reflexivity. Qed.

(** Overwriting a counted slot does not raise the count. *)
Lemma countLoops_insert f ls i old new :
  ls !! i = Some old -> f old = true ->
  (countLoops f (<[i := new]> ls) <= countLoops f ls)%nat.
Proof.
  revert i. induction ls as [|l ls IH]; intros i Hi Hold; [discriminate|].
  destruct i as [|i]; simpl in Hi |- *.
  - injection Hi as ->. rewrite !countLoops_cons, Hold.
    destruct (f new); simpl; lia.
  - rewrite !countLoops_cons. specialize (IH i Hi Hold). lia.
Qed.

Lemma outstanding_le_countAlive ls :
  (countLoops isAwaiting ls <= countLoops isAlive ls)%nat.
Proof.
  induction ls as [|l ls IH]; [reflexivity|].
  rewrite !countLoops_cons. destruct l; simpl; lia.
Qed.

Lemma outstanding_le_alive st : (outstanding st <= alive st)%nat.
Proof. apply outstanding_le_countAlive. Qed.

(** With every live loop awaiting its call, none is waiting for a frame. *)
Lemma all_alive_awaiting st :
  (alive st <= outstanding st)%nat ->
  Forall (fun l => l <> Scheduled) (loops st).
Proof.
  unfold outstanding, alive. induction (loops st) as [|l ls IH]; intros H.
  - constructor.
  - rewrite !countLoops_cons in H.
    pose proof (outstanding_le_countAlive ls) as Hle.
    destruct l; simpl in H; constructor; try discriminate; try (apply IH; lia).
    lia.
Qed.

Lemma alive_step st e : isStart e = false -> (alive (step st e) <= alive st)%nat.
Proof.
  intros He. unfold alive.
  destruct e as [available| | | | |i available|i r now]; try discriminate; simpl.
  - handler_cases stopProcessing st.
  - reflexivity.
  - handler_cases handleReset st.
  - handler_cases handleClearVideo st.
  - destruct (loops st !! i) as [[| |]|] eqn:Hi; try reflexivity.
    destruct (loops_enter i available st) as [l ->].
    eapply countLoops_insert; [exact Hi|reflexivity].
  - destruct (loops st !! i) as [[| |]|] eqn:Hi; try reflexivity.
    destruct (loops_resume i r now st) as [l ->].
    eapply countLoops_insert; [exact Hi|reflexivity].
Qed.

Lemma alive_startProcessing available st :
  (alive (startProcessing available st) <= S (alive st))%nat.
Proof.
  unfold alive, startProcessing.
  destruct (negb (detectorRef st) || negb (videoRef st)); [lia|].
  match goal with |- context [detectLoop_enter ?i ?a ?s] =>
    destruct (loops_enter i a s) as [l ->] end.
  simpl. rewrite insert_app_r_alt by lia.
  rewrite Nat.sub_diag, countLoops_app. simpl. rewrite countLoops_cons.
  destruct (isAlive l); unfold countLoops; rewrite filter_nil; simpl; lia.
Qed.

Lemma alive_run events st :
  (alive st <= 1)%nat -> startsWhenIdle st events = true ->
  (alive (run st events) <= 1)%nat.
Proof.
  revert st. induction events as [|e events IH]; intros st Hst Hev; [exact Hst|].
  simpl in Hev. apply andb_prop in Hev as [He Hev].
  change (run st (e :: events)) with (run (step st e) events).
  apply IH; [|exact Hev].
  destruct (isStart e) eqn:Hstart.
  - apply Nat.eqb_eq in He. destruct e; try discriminate. simpl.
    pose proof (alive_startProcessing available st). lia.
  - pose proof (alive_step st e Hstart). lia.
Qed.

Lemma step_quiet_no_pending_frame st e :
  isQuiet e = true ->
  Forall (fun l => l <> Scheduled) (loops st) ->
  loops (step st e) = loops st /\ detectCalls (step st e) = detectCalls st.
Proof.
  intros Hq Hloops.
  destruct e as [available| | | | |i available|i r now]; try discriminate; simpl.
  - handler_cases stopProcessing st.
  - auto.
  - handler_cases handleReset st.
  - handler_cases handleClearVideo st.
  - destruct (loops st !! i) as [l|] eqn:Hi; [|auto].
    destruct l; auto.
    exfalso. eapply Forall_lookup_1 in Hloops; [|exact Hi]. congruence.
Qed.

Lemma run_quiet_no_pending_frame more st :
  Forall (fun e => isQuiet e = true) more ->
  Forall (fun l => l <> Scheduled) (loops st) ->
  loops (run st more) = loops st /\ detectCalls (run st more) = detectCalls st.
Proof.
  revert st. induction more as [|e more IH]; intros st Hq Hloops; [auto|].
  inversion Hq as [|? ? He Hmore]; subst.
  destruct (step_quiet_no_pending_frame st e He Hloops) as [Hl Hc].
  change (run st (e :: more)) with (run (step st e) more).
  destruct (IH (step st e) Hmore) as [Hl' Hc'].
  - rewrite Hl. exact Hloops.
  - split; congruence.
Qed.

(** C1, as stated, fails: [start()], [stop()] during the call, [start()]
    again.  The loop of the first session outlives it and goes on in the
    second: with the call of the second session unresolved, a tick of that
    loop submits a new frame, and two submissions are outstanding. *)
Lemma restart_two_in_flight :
  outstanding restartedFirstSettled = 1%nat /\
  loops restartedFirstSettled = [Scheduled; Awaiting (frame 1)] /\
  detectCalls (step restartedFirstSettled (AnimationFrame 0 (Some (frame 2)))) =
    detectCalls restartedFirstSettled ++ [frame 2] /\
  outstanding (step restartedFirstSettled (AnimationFrame 0 (Some (frame 2)))) =
    2%nat.
Proof. vm_compute. auto. Qed.

(** C1, amended: in every run in which each [start()] comes when no detect
    loop of an earlier [start()] is still alive, at most one inference call
    is outstanding; and while one is outstanding, no sequence of ticks and of
    stop, pause, reset and clear commands submits a frame: the submissions
    stay as they are and exactly one remains outstanding until the call
    settles. *)
Theorem at_most_one_in_flight (st0 : Home) (events more : list Event) :
  (alive st0 <= 1)%nat ->
  startsWhenIdle st0 events = true ->
  Forall (fun e => isQuiet e = true) more ->
  (outstanding (run st0 events) <= 1)%nat /\
  (outstanding (run st0 events) = 1%nat ->
   detectCalls (run (run st0 events) more) = detectCalls (run st0 events) /\
   outstanding (run (run st0 events) more) = 1%nat).
Proof.
  intros Hinit Hstarts Hquiet.
  pose proof (alive_run events st0 Hinit Hstarts) as Halive.
  pose proof (outstanding_le_alive (run st0 events)) as Hle.
  split; [lia|]. intros Hout.
  destruct (run_quiet_no_pending_frame more (run st0 events) Hquiet) as [Hl Hc].
  - apply all_alive_awaiting. lia.
  - split; [exact Hc|]. unfold outstanding in *. rewrite Hl. exact Hout.
Qed.

Lemma at_most_one_in_flight_witness :
  (alive readyHome <= 1)%nat /\
  startsWhenIdle readyHome orderlyRestart = true /\
  Forall (fun e => isQuiet e = true) ticksAndCommands /\
  (outstanding (run readyHome orderlyRestart) <= 1)%nat /\
  (outstanding (run readyHome orderlyRestart) = 1%nat ->
   detectCalls (run (run readyHome orderlyRestart) ticksAndCommands) =
     detectCalls (run readyHome orderlyRestart) /\
   outstanding (run (run readyHome orderlyRestart) ticksAndCommands) = 1%nat).
Proof.
  assert (H1 : (alive readyHome <= 1)%nat) by (vm_compute; lia).
  assert (H2 : startsWhenIdle readyHome orderlyRestart = true)
    by (vm_compute; reflexivity).
  assert (H3 : Forall (fun e => isQuiet e = true) ticksAndCommands)
    by (repeat constructor).
  split; [exact H1|]. split; [exact H2|]. split; [exact H3|].
  exact (at_most_one_in_flight readyHome orderlyRestart ticksAndCommands
           H1 H2 H3).
Defined.

(** ** Stop *)

Lemma sessionStopped_stopProcessing st : sessionStopped (stopProcessing st).
Proof.
  unfold sessionStopped, stopProcessing. simpl.
  destruct (processorRef st) eqn:Hp; simpl; rewrite ?Hp; [reflexivity|exact I].
Qed.

Lemma continue_keeps_session i st :
  processorRef (detectLoop_continue i st) = processorRef st /\
  detections (detectLoop_continue i st) = detections st /\
  stats (detectLoop_continue i st) = stats st /\
  console (detectLoop_continue i st) = console st /\
  detectCalls (detectLoop_continue i st) = detectCalls st.
Proof.
  unfold detectLoop_continue.
  destruct (processorRef st) as [p|] eqn:Hp;
    [destruct (VideoProcessor.isProcessingStopped p)|]; simpl; auto.
Qed.

Lemma enter_keeps_session i available st :
  processorRef (detectLoop_enter i available st) = processorRef st /\
  detections (detectLoop_enter i available st) = detections st /\
  stats (detectLoop_enter i available st) = stats st /\
  console (detectLoop_enter i available st) = console st.
Proof.
  unfold detectLoop_enter.
  destruct (negb (detectorRef st)); [simpl; auto|].
  destruct (processorRef st) as [p|] eqn:Hp; [|simpl; auto].
  destruct (VideoProcessor.getCurrentFrame p available); [simpl; auto|].
  pose proof (continue_keeps_session i st) as H. rewrite Hp in H. tauto.
Qed.

(** A settlement that reaches a stopped session changes nothing that is
    published. *)
Lemma resume_stopped i r now st :
  sessionStopped st ->
  processorRef (detectLoop_resume i r now st) = processorRef st /\
  detections (detectLoop_resume i r now st) = detections st /\
  stats (detectLoop_resume i r now st) = stats st.
Proof.
  unfold sessionStopped, detectLoop_resume. intros Hstopped.
  match goal with |- context [detectLoop_continue i ?s] =>
    destruct (continue_keeps_session i s) as (-> & -> & -> & _) end.
  destruct r as [ds|err]; [|simpl; auto].
  destruct (processorRef st) as [p|] eqn:Hp; [|simpl; rewrite Hp; auto].
  unfold VideoProcessor.updateDetections. rewrite Hstopped. simpl. auto.
Qed.

Lemma sessionStopped_step st e :
  isStart e = false -> sessionStopped st -> sessionStopped (step st e).
Proof.
  intros He Hst. unfold sessionStopped in *.
  destruct e as [available| | | | |i available|i r now]; try discriminate; simpl.
  - handler_cases stopProcessing st.
  - exact Hst.
  - handler_cases handleReset st.
  - handler_cases handleClearVideo st.
  - destruct (loops st !! i) as [[| |]|]; auto.
    destruct (enter_keeps_session i available st) as (-> & _). exact Hst.
  - destruct (loops st !! i) as [[| |]|]; auto.
    destruct (resume_stopped i r now st Hst) as (-> & _). exact Hst.
Qed.

Lemma sessionStopped_run events st :
  Forall (fun e => isStart e = false) events ->
  sessionStopped st -> sessionStopped (run st events).
Proof.
  revert st. induction events as [|e events IH]; intros st Hev Hst; [exact Hst|].
  inversion Hev; subst.
  change (run st (e :: events)) with (run (step st e) events).
  apply IH; [assumption|]. apply sessionStopped_step; assumption.
Qed.

(** C2, as stated, fails: [start()], [stop()] during the call, [start()]
    again; when the call of the stopped session then resolves, its result is
    published and counted, in the new session. *)
Lemma restart_publishes_stopped_result :
  loops restarted !! 0%nat = Some (Awaiting (frame 0)) /\
  detections restarted = [] /\
  totalDetections (stats restarted) = 0 /\
  detections (step restarted (InferenceSettled 0 (Resolved [car]) 1000)) = [car] /\
  totalDetections
    (stats (step restarted (InferenceSettled 0 (Resolved [car]) 1000))) = 1.
Proof. vm_compute. auto. Qed.

(** C2, amended: after [stop()], as long as [start()] is not invoked again,
    the settlement of a pending inference call, whenever it comes and
    whatever it carries, changes neither the published batch nor the
    published statistics nor the processor (its statistics and its record of
    published batches). *)
Theorem stop_discards_pending_result
    (st : Home) (events : list Event) (i : nat) (r : Settlement) (now : Z) :
  Forall (fun e => isStart e = false) events ->
  detections (step (run (stopProcessing st) events) (InferenceSettled i r now)) =
    detections (run (stopProcessing st) events) /\
  stats (step (run (stopProcessing st) events) (InferenceSettled i r now)) =
    stats (run (stopProcessing st) events) /\
  processorRef (step (run (stopProcessing st) events) (InferenceSettled i r now)) =
    processorRef (run (stopProcessing st) events).
Proof.
  intros Hev.
  pose proof (sessionStopped_run events _ Hev (sessionStopped_stopProcessing st))
    as Hst.
  simpl. destruct (loops _ !! i) as [[| |]|]; auto.
  destruct (resume_stopped i r now _ Hst) as (H1 & H2 & H3). auto.
Qed.

Lemma stop_discards_pending_result_witness :
  Forall (fun e => isStart e = false) [ResetClick] /\
  loops (run (stopProcessing running) [ResetClick]) !! 0%nat =
    Some (Awaiting (frame 0)) /\
  detections
    (step (run (stopProcessing running) [ResetClick])
       (InferenceSettled 0 (Resolved [car]) 1000)) =
    detections (run (stopProcessing running) [ResetClick]) /\
  stats
    (step (run (stopProcessing running) [ResetClick])
       (InferenceSettled 0 (Resolved [car]) 1000)) =
    stats (run (stopProcessing running) [ResetClick]) /\
  processorRef
    (step (run (stopProcessing running) [ResetClick])
       (InferenceSettled 0 (Resolved [car]) 1000)) =
    processorRef (run (stopProcessing running) [ResetClick]).
Proof.
  assert (H : Forall (fun e => isStart e = false) [ResetClick])
    by (repeat constructor).
  split; [exact H|]. split; [reflexivity|].
  exact (stop_discards_pending_result running [ResetClick] 0
           (Resolved [car]) 1000 H).
Defined.

(** ** Pause *)

(** [togglePause] touches [isPaused] and nothing else, and no handler and no
    stretch of [detectLoop] reads [isPaused]: two pages that differ in that
    flag only take the same steps. *)
Lemma step_ignores_isPaused b st e :
  setIsPaused false (step (setIsPaused b st) e) = setIsPaused false (step st e).
Proof.
  destruct st as [sf ip pa ds ss er ca vr dr pro ls co dc].
  destruct e as [available| | | | |i available|i r now]; simpl.
  - destruct dr, vr; try reflexivity; destruct available; reflexivity.
  - destruct pro; reflexivity.
  - reflexivity.
  - destruct pro; reflexivity.
  - destruct pro; reflexivity.
  - destruct (ls !! i) as [[| |]|]; try reflexivity.
    destruct pro as [[v [| |] cu pu s]|], dr; try reflexivity;
      destruct v, available; reflexivity.
  - destruct (ls !! i) as [[| |]|]; try reflexivity.
    destruct pro as [[v [| |] cu pu s]|], r; reflexivity.
Qed.

Lemma run_ignores_isPaused events st st' :
  setIsPaused false st = setIsPaused false st' ->
  setIsPaused false (run st events) = setIsPaused false (run st' events).
Proof.
  revert st st'. induction events as [|e events IH]; intros st st' H; [exact H|].
  change (run st (e :: events)) with (run (step st e) events).
  change (run st' (e :: events)) with (run (step st' e) events).
  apply IH.
  rewrite <- (step_ignores_isPaused false st), <- (step_ignores_isPaused false st').
  rewrite H. reflexivity.
Qed.

(** Whatever happens afterwards, the same frames are submitted with and
    without a [pause()]. *)
Lemma pause_never_changes_submissions events st :
  detectCalls (run (togglePause st) events) = detectCalls (run st events).
Proof.
  change (detectCalls (setIsPaused false (run (togglePause st) events)) =
          detectCalls (setIsPaused false (run st events))).
  f_equal. apply run_ignores_isPaused. reflexivity.
Qed.

(** C3 on the code: [pause()] during the first call; the call resolves and
    its result is published, but the loop is rescheduled, and at the next
    tick, the page still paused, a second frame is submitted. *)
Example paused_loop_keeps_submitting :
  loops (step running PauseClick) = [Awaiting (frame 0)] /\
  isPaused pausedInFlight = true /\
  detections pausedInFlight = [car] /\
  loops pausedInFlight = [Scheduled] /\
  detectCalls pausedInFlight = [frame 0] /\
  isPaused (step pausedInFlight (AnimationFrame 0 (Some (frame 1)))) = true /\
  detectCalls (step pausedInFlight (AnimationFrame 0 (Some (frame 1)))) =
    [frame 0; frame 1] /\
  outstanding (step pausedInFlight (AnimationFrame 0 (Some (frame 1)))) = 1%nat.
Proof. vm_compute. repeat split. Qed.

(** ** Start *)

(** Without an initialised detector or a mounted video, [start()] does
    nothing at all. *)
Lemma start_needs_detector_and_video available st :
  detectorRef st = false \/ videoRef st = false ->
  startProcessing available st = st.
Proof.
  intros [H|H]; unfold startProcessing; rewrite H;
    [reflexivity|destruct (detectorRef st); reflexivity].
Qed.

Example start_before_initialisation :
  startProcessing (Some (frame 0)) initialHome = initialHome.
Proof. reflexivity. Qed.




(** ** Inference failures *)

(** C5, as stated, fails: with a batch on display, a call that raises leaves
    that batch on display; no empty batch is published or recorded. *)
Lemma failed_inference_publishes_nothing :
  loops showingCar !! 0%nat = Some (Awaiting (frame 1)) /\
  detections (step showingCar (InferenceSettled 0 (Rejected "backend") 2000)) =
    [car] /\
  option_map VideoProcessor.exportDetections
    (processorRef (step showingCar (InferenceSettled 0 (Rejected "backend") 2000))) =
    Some [[car]].
Proof. vm_compute. repeat split. Qed.

(** C5, amended: when the awaited inference call raises, the error is caught
    and written to the console as an error entry; nothing is published for
    that cycle: the batch on display, the statistics and the processor stay
    as they were; and the loop goes on: it requests the next animation frame
    unless the session has been stopped meanwhile. *)
Theorem inference_failure_is_logged_and_skipped
    (st : Home) (i : nat) (f : ImageData) (err : string) (now : Z) :
  loops st !! i = Some (Awaiting f) ->
  console (step st (InferenceSettled i (Rejected err) now)) =
    console st ++ [ConsoleError ("Detection error: " +:+ err)] /\
  detections (step st (InferenceSettled i (Rejected err) now)) = detections st /\
  stats (step st (InferenceSettled i (Rejected err) now)) = stats st /\
  processorRef (step st (InferenceSettled i (Rejected err) now)) =
    processorRef st /\
  loops (step st (InferenceSettled i (Rejected err) now)) !! i =
    Some match processorRef st with
         | Some p =>
             if VideoProcessor.isProcessingStopped p then Ended else Scheduled
         | None => Ended
         end.
Proof.
  intros Hi. simpl. rewrite Hi. unfold detectLoop_resume.
  assert (Hlt : (i < length (loops st))%nat)
    by (apply lookup_lt_is_Some; eauto).
  match goal with |- context [detectLoop_continue i ?s] =>
    destruct (continue_keeps_session i s) as (-> & -> & -> & -> & _) end.
  repeat split.
  unfold detectLoop_continue. simpl.
  destruct (processorRef st) as [p|];
    [destruct (VideoProcessor.isProcessingStopped p)|];
    simpl; apply list_lookup_insert_eq; exact Hlt.
Qed.

Lemma inference_failure_is_logged_and_skipped_witness :
  loops showingCar !! 0%nat = Some (Awaiting (frame 1)) /\
  console (step showingCar (InferenceSettled 0 (Rejected "backend") 2000)) =
    console showingCar ++ [ConsoleError ("Detection error: " +:+ "backend")] /\
  detections (step showingCar (InferenceSettled 0 (Rejected "backend") 2000)) =
    detections showingCar /\
  stats (step showingCar (InferenceSettled 0 (Rejected "backend") 2000)) =
    stats showingCar /\
  processorRef (step showingCar (InferenceSettled 0 (Rejected "backend") 2000)) =
    processorRef showingCar /\
  loops (step showingCar (InferenceSettled 0 (Rejected "backend") 2000)) !! 0%nat =
    Some match processorRef showingCar with
         | Some p =>
             if VideoProcessor.isProcessingStopped p then Ended else Scheduled
         | None => Ended
         end.
Proof.
  split; [reflexivity|].
  apply (inference_failure_is_logged_and_skipped showingCar 0 (frame 1)
           "backend" 2000).
  reflexivity.
Defined.

(** ** Publication *)


(** The same from the loop: a call that resolves in a running session puts
    its batch, and nothing else, on display. *)
Lemma resolved_batch_is_displayed st i f p batch now :
  loops st !! i = Some (Awaiting f) ->
  processorRef st = Some p ->
  VideoProcessor.isProcessingStopped p = false ->
  detections (step st (InferenceSettled i (Resolved batch) now)) = batch /\
  stats (step st (InferenceSettled i (Resolved batch) now)) =
    ingest (VideoProcessor.stats p) now batch.
Proof.
  intros Hi Hp Hrun. simpl. rewrite Hi. unfold detectLoop_resume.
  match goal with |- context [detectLoop_continue i ?s] =>
    destruct (continue_keeps_session i s) as (_ & -> & -> & _) end.
  rewrite Hp. unfold VideoProcessor.updateDetections. rewrite Hrun.
  split; reflexivity.
Qed.

(** ** What stop leaves in place *)

(** C10: [stop()] writes the two flags of the page and the stopped state of
    the processor, nothing else: the published batch and statistics, on the
    page and in the processor, are the ones from before.  [reset()] and
    clearing the video empty the batch and zero the statistics; no other
    command and no tick changes them (a publication replaces them). *)
Theorem stop_keeps_published (st : Home) (e : Event) :
  stopProcessing st =
    setProcessorRef (option_map VideoProcessor.stopProcessing (processorRef st))
      (setIsPaused false (setIsProcessing false st)) /\
  (detections (stopProcessing st) = detections st /\
   stats (stopProcessing st) = stats st) /\
  (option_map VideoProcessor.current (processorRef (stopProcessing st)) =
     option_map VideoProcessor.current (processorRef st) /\
   option_map VideoProcessor.stats (processorRef (stopProcessing st)) =
     option_map VideoProcessor.stats (processorRef st) /\
   option_map VideoProcessor.published (processorRef (stopProcessing st)) =
     option_map VideoProcessor.published (processorRef st)) /\
  (detections (handleReset st) = [] /\ stats (handleReset st) = zeroStats) /\
  (detections (handleClearVideo st) = [] /\
   stats (handleClearVideo st) = zeroStats) /\
  match e with
  | ResetClick | ClearVideoClick | InferenceSettled _ _ _ => True
  | _ => detections (step st e) = detections st /\ stats (step st e) = stats st
  end.
Proof.
  split; [|split; [|split; [|split; [|split]]]].
  - unfold stopProcessing. simpl. destruct st as [? ? ? ? ? ? ? ? ? [p|] ? ? ?];
      reflexivity.
  - handler_cases stopProcessing st.
  - handler_cases stopProcessing st.
  - handler_cases handleReset st.
  - handler_cases handleClearVideo st.
  - destruct e as [available| | | | |i available|i r now]; simpl; auto.
    + unfold startProcessing.
      destruct (negb (detectorRef st) || negb (videoRef st)); [auto|].
      match goal with |- context [detectLoop_enter ?i ?a ?s] =>
        destruct (enter_keeps_session i a s) as (_ & -> & -> & _) end.
      auto.
    + handler_cases stopProcessing st.
    + destruct (loops st !! i) as [[| |]|]; auto.
      destruct (enter_keeps_session i available st) as (_ & -> & -> & _). auto.
Qed.

(** ** Export *)



Example toISOString_epoch : toISOString 0 = "1970-01-01T00:00:00.000Z"%string.
Proof. vm_compute. reflexivity. Qed.

Example toISOString_year_zero :
  toISOString (-62167219200000) = "0000-01-01T00:00:00.000Z"%string.
Proof. vm_compute. reflexivity. Qed.

Example toISOString_last_millisecond :
  toISOString 253402300799999 = "9999-12-31T23:59:59.999Z"%string.
Proof. vm_compute. reflexivity. Qed.

Example toISOString_leap_day :
  toISOString 1709210096789 = "2024-02-29T12:34:56.789Z"%string.
Proof. vm_compute. reflexivity. Qed.




(** Without a session there is nothing to export. *)
Lemma export_without_session date now st :
  processorRef st = None -> handleExport date now st = None.
Proof. intros H. unfold handleExport. rewrite H. reflexivity. Qed.

Example export_file_name :
  option_map ExportDoc.download
    (handleExport 1709210096789 1709210096790 pausedInFlight) =
    Some "object-detections-1709210096790.json"%string.
Proof. vm_compute. reflexivity. Qed.

(** ** The running mean *)






(** The end-to-end scenario of the specification. *)
Example averageConfidence_scenario :
  totalDetections
    (foldl aggregate zeroStats
       [Publish 1000 [car]; Publish 2000 [dimCar; person]]) = 3 /\
  averageConfidence
    (foldl aggregate zeroStats
       [Publish 1000 [car]; Publish 2000 [dimCar; person]]) =
    Q2Qc (7 # 10) /\
  classCounts
    (foldl aggregate zeroStats
       [Publish 1000 [car]; Publish 2000 [dimCar; person]]) =
    {[ "car"%string := 2; "person"%string := 1 ]}.
Proof.
  split; [vm_compute; reflexivity|]. split.
  - apply Qc_is_canon. vm_compute. reflexivity.
  - vm_compute. reflexivity.
Qed.

(** ** Coordinate mapping *)



(** ** More about the handlers of the page *)

Lemma flags_eq a b :
  flags a = flags b ->
  selectedFile a = selectedFile b /\ isProcessing a = isProcessing b /\
  isPaused a = isPaused b /\ error a = error b /\
  isCameraActive a = isCameraActive b /\ videoRef a = videoRef b /\
  detectorRef a = detectorRef b.
Proof. unfold flags. intros H. injection H. auto 10. Qed.

Lemma flags_runCallbacks callbacks st :
  flags (foldl runCallback st callbacks) = flags st.
Proof.
  revert st. induction callbacks as [|c callbacks IH]; intros st; [reflexivity|].
  simpl. rewrite IH. destruct c; reflexivity.
Qed.

Lemma flags_continue i st : flags (detectLoop_continue i st) = flags st.
Proof.
  unfold detectLoop_continue.
  destruct (processorRef st) as [p|];
    [destruct (VideoProcessor.isProcessingStopped p)|]; reflexivity.
Qed.

Lemma flags_enter i available st :
  flags (detectLoop_enter i available st) = flags st.
Proof.
  unfold detectLoop_enter.
  destruct (negb (detectorRef st)); [reflexivity|].
  destruct (processorRef st) as [p|]; [|reflexivity].
  destruct (VideoProcessor.getCurrentFrame p available); [reflexivity|].
  apply flags_continue.
Qed.

Lemma flags_resume i r now st :
  flags (detectLoop_resume i r now st) = flags st.
Proof.
  unfold detectLoop_resume. rewrite flags_continue.
  destruct r as [ds|err]; [|reflexivity].
  destruct (processorRef st) as [p|]; [|reflexivity].
  destruct (VideoProcessor.updateDetections p now ds) as [p' callbacks].
  rewrite flags_runCallbacks. reflexivity.
Qed.

(** No event of the page assigns [detectorRef] or [videoRef]. *)
Lemma refs_step st e :
  detectorRef (step st e) = detectorRef st /\ videoRef (step st e) = videoRef st.
Proof.
  destruct e as [available| | | | |i available|i r now]; simpl.
  - unfold startProcessing.
    destruct (negb (detectorRef st) || negb (videoRef st)); [auto|].
    match goal with |- context [detectLoop_enter ?i ?a ?s] =>
      pose proof (flags_enter i a s) as H end.
    unfold flags in H. simpl in H. injection H as _ _ _ _ _ Hv Hd. auto.
  - handler_cases stopProcessing st.
  - auto.
  - handler_cases handleReset st.
  - handler_cases handleClearVideo st.
  - destruct (loops st !! i) as [[| |]|]; auto.
    pose proof (flags_enter i available st) as H.
    unfold flags in H. injection H as _ _ _ _ _ Hv Hd. auto.
  - destruct (loops st !! i) as [[| |]|]; auto.
    pose proof (flags_resume i r now st) as H.
    unfold flags in H. injection H as _ _ _ _ _ Hv Hd. auto.
Qed.

Lemma neverStarted_step st e :
  detectorRef st = false \/ videoRef st = false ->
  neverStarted st ->
  neverStarted (step st e) /\ detectCalls (step st e) = detectCalls st.
Proof.
  intros Hrefs [Hp Hl]. unfold neverStarted.
  destruct e as [available| | | | |i available|i r now]; simpl.
  - unfold startProcessing.
    destruct Hrefs as [-> | ->]; [|rewrite orb_true_r]; auto.
  - unfold stopProcessing. simpl. rewrite Hp. auto.
  - auto.
  - unfold handleReset. simpl. rewrite Hp. auto.
  - unfold handleClearVideo. simpl. rewrite Hp. auto.
  - rewrite Hl. auto.
  - rewrite Hl. auto.
Qed.

(** X1: while the detector is not initialised (or no video element is
    mounted), nothing the user does and nothing that comes due starts the
    pipeline: on a page that has never started, every run leaves it without
    processor and without detect loop, submits no frame and leaves nothing
    to export. *)
Theorem without_detector_nothing_starts
    (st : Home) (events : list Event) (date now : Z) :
  detectorRef st = false \/ videoRef st = false ->
  processorRef st = None ->
  loops st = [] ->
  processorRef (run st events) = None /\
  loops (run st events) = [] /\
  detectCalls (run st events) = detectCalls st /\
  handleExport date now (run st events) = None.
Proof.
  intros Hrefs Hp Hl.
  assert (H : neverStarted (run st events) /\
              detectCalls (run st events) = detectCalls st).
  { assert (Hst : neverStarted st) by (split; assumption). clear Hp Hl.
    revert st Hrefs Hst. induction events as [|e events IH]; intros st Hrefs Hst.
    - auto.
    - change (run st (e :: events)) with (run (step st e) events).
      destruct (neverStarted_step st e Hrefs Hst) as [Hst' Hc].
      destruct (refs_step st e) as [Hd Hv].
      destruct (IH (step st e)) as [H1 H2]; [congruence|exact Hst'|].
      split; [exact H1|congruence]. }
  destruct H as [[Hp' Hl'] Hc]. repeat split; try assumption.
  unfold handleExport. rewrite Hp'. reflexivity.
Qed.

Lemma without_detector_nothing_starts_witness :
  (detectorRef initialHome = false \/ videoRef initialHome = false) /\
  processorRef initialHome = None /\
  loops initialHome = [] /\
  processorRef
    (run initialHome [StartClick (Some (frame 0)); PauseClick; StopClick]) =
    None /\
  loops (run initialHome [StartClick (Some (frame 0)); PauseClick; StopClick]) =
    [] /\
  detectCalls
    (run initialHome [StartClick (Some (frame 0)); PauseClick; StopClick]) =
    detectCalls initialHome /\
  handleExport 0 0
    (run initialHome [StartClick (Some (frame 0)); PauseClick; StopClick]) =
    None.
Proof.
  assert (H1 : detectorRef initialHome = false \/ videoRef initialHome = false)
    by (left; reflexivity).
  split; [exact H1|]. split; [reflexivity|]. split; [reflexivity|].
  exact (without_detector_nothing_starts initialHome
           [StartClick (Some (frame 0)); PauseClick; StopClick] 0 0
           H1 eq_refl eq_refl).
Defined.

(** X2: a tick at which the video has no frame is skipped without a trace:
    in a session that has not been stopped, the page after the tick is the
    page before it, the loop waiting for its next animation frame; nothing is
    submitted, logged or published. *)
Theorem tick_without_frame_is_skipped
    (st : Home) (i : nat) (p : VideoProcessor.t) :
  loops st !! i = Some Scheduled ->
  detectorRef st = true ->
  processorRef st = Some p ->
  VideoProcessor.isProcessingStopped p = false ->
  step st (AnimationFrame i None) = st.
Proof.
  intros Hi Hd Hp Hrun. simpl. rewrite Hi.
  unfold detectLoop_enter. rewrite Hd, Hp. simpl.
  assert (Hframe : VideoProcessor.getCurrentFrame p None = None)
    by (unfold VideoProcessor.getCurrentFrame; destruct (VideoProcessor.video p);
        reflexivity).
  rewrite Hframe. unfold detectLoop_continue. rewrite Hp, Hrun.
  unfold setLoop. rewrite list_insert_id by exact Hi.
  destruct st; reflexivity.
Qed.

Lemma tick_without_frame_is_skipped_witness :
  loops pausedInFlight !! 0%nat = Some Scheduled /\
  detectorRef pausedInFlight = true /\
  (exists p, processorRef pausedInFlight = Some p /\
             VideoProcessor.isProcessingStopped p = false) /\
  step pausedInFlight (AnimationFrame 0 None) = pausedInFlight.
Proof.
  split; [reflexivity|]. split; [reflexivity|].
  split; [eexists; split; reflexivity|].
  exact (tick_without_frame_is_skipped pausedInFlight 0 _
           eq_refl eq_refl eq_refl eq_refl).
Defined.

Lemma processorRef_afterCallbacks callbacks st :
  processorRef (foldl runCallback st callbacks) = processorRef st.
Proof.
  revert st. induction callbacks as [|c callbacks IH]; intros st; [reflexivity|].
  simpl. rewrite IH. destruct c; reflexivity.
Qed.

(** [processorRef.current] is assigned by [startProcessing] only, and never
    null. *)
Lemma processorRef_stays st e :
  is_Some (processorRef st) -> is_Some (processorRef (step st e)).
Proof.
  intros [p Hp].
  destruct e as [available| | | | |i available|i r now]; simpl.
  - unfold startProcessing.
    destruct (negb (detectorRef st) || negb (videoRef st)); [rewrite Hp; eauto|].
    match goal with |- context [detectLoop_enter ?i ?a ?s] =>
      destruct (enter_keeps_session i a s) as (-> & _) end.
    simpl. eauto.
  - unfold stopProcessing. simpl. rewrite Hp. simpl. eauto.
  - rewrite Hp. eauto.
  - unfold handleReset. simpl. rewrite Hp. simpl. eauto.
  - unfold handleClearVideo. simpl. rewrite Hp. simpl. eauto.
  - destruct (loops st !! i) as [[| |]|]; try (rewrite Hp; eauto).
    destruct (enter_keeps_session i available st) as (-> & _). rewrite Hp. eauto.
  - destruct (loops st !! i) as [[| |]|]; try (rewrite Hp; eauto).
    unfold detectLoop_resume.
    match goal with |- context [detectLoop_continue i ?s] =>
      destruct (continue_keeps_session i s) as (-> & _) end.
    destruct r as [ds|err]; [|simpl; rewrite Hp; eauto].
    rewrite Hp.
    destruct (VideoProcessor.updateDetections p now ds) as [p' callbacks].
    rewrite processorRef_afterCallbacks. simpl. eauto.
Qed.

Lemma processorRef_stays_run events st :
  is_Some (processorRef st) -> is_Some (processorRef (run st events)).
Proof.
  revert st. induction events as [|e events IH]; intros st H; [exact H|].
  change (run st (e :: events)) with (run (step st e) events).
  apply IH, processorRef_stays, H.
Qed.

(** X3: once a start has been accepted the export stays available: whatever
    happens afterwards (stop, reset, clearing the video, further starts,
    failing calls) [handleExport] yields a file. *)
Theorem export_stays_available
    (st : Home) (events : list Event) (date now : Z) :
  is_Some (processorRef st) ->
  is_Some (handleExport date now (run st events)).
Proof.
  intros H. destruct (processorRef_stays_run events st H) as [p Hp].
  unfold handleExport. rewrite Hp. eauto.
Qed.

Lemma export_stays_available_witness :
  is_Some (processorRef running) /\
  is_Some
    (handleExport 0 1
       (run running
          [StopClick; ClearVideoClick; ResetClick;
           InferenceSettled 0 (Rejected "backend") 1000])).
Proof.
  assert (H : is_Some (processorRef running)) by (eexists; reflexivity).
  split; [exact H|].
  exact (export_stays_available running
           [StopClick; ClearVideoClick; ResetClick;
            InferenceSettled 0 (Rejected "backend") 1000] 0 1 H).
Defined.

Lemma flags_step_quiet st e :
  match e with
  | StartClick _ | StopClick | PauseClick => True
  | _ => isProcessing (step st e) = isProcessing st /\
         isPaused (step st e) = isPaused st
  end.
Proof.
  destruct e as [available| | | | |i available|i r now]; simpl; auto.
  - handler_cases handleReset st.
  - handler_cases handleClearVideo st.
  - destruct (loops st !! i) as [[| |]|]; auto.
    pose proof (flags_enter i available st) as H.
    unfold flags in H. injection H as _ Hp Hq _ _ _ _. auto.
  - destruct (loops st !! i) as [[| |]|]; auto.
    pose proof (flags_resume i r now st) as H.
    unfold flags in H. injection H as _ Hp Hq _ _ _ _. auto.
Qed.

Lemma flagsConsistent_stepUI st e :
  flagsConsistent st -> flagsConsistent (stepUI st e).
Proof.
  intros [Hpause Hproc]. unfold stepUI.
  destruct (deliverable st e) eqn:Hdel; [|split; assumption].
  pose proof (flags_step_quiet st e) as Hq.
  pose proof (processorRef_stays st e) as Hstay.
  destruct e as [available| | | | |i available|i r now].
  - simpl. unfold startProcessing.
    destruct (negb (detectorRef st) || negb (videoRef st)); [split; assumption|].
    simpl.
    match goal with |- context [detectLoop_enter ?i ?a ?s] =>
      pose proof (flags_enter i a s) as H;
      destruct (enter_keeps_session i a s) as (Hp & _) end.
    unfold flags in H. simpl in H, Hp. injection H as _ H1 H2 _ _ _ _.
    split; intros Hx; [congruence|]. rewrite Hp. eauto.
  - split; simpl; unfold stopProcessing; simpl;
      destruct (processorRef st); simpl; discriminate.
  - simpl in Hdel. unfold pauseDisabled in Hdel.
    apply andb_prop in Hdel as [_ Hdel]. apply negb_true_iff in Hdel.
    apply negb_false_iff in Hdel.
    split; simpl; intros _; [exact Hdel|auto].
  - destruct Hq as [H1 H2]. split; rewrite ?H1, ?H2; auto.
  - destruct Hq as [H1 H2]. split; rewrite ?H1, ?H2; auto.
  - destruct Hq as [H1 H2]. split; rewrite ?H1, ?H2; auto.
  - destruct Hq as [H1 H2]. split; rewrite ?H1, ?H2; auto.
Qed.

(** X4: when the user can only click what is rendered and enabled, the page
    is never paused without processing, and never processing without a
    processor: both hold after every run that starts from a page where they
    hold (the initial page for one). *)
Theorem paused_only_while_processing (st : Home) (events : list Event) :
  (isPaused st = true -> isProcessing st = true) ->
  (isProcessing st = true -> is_Some (processorRef st)) ->
  (isPaused (runUI st events) = true -> isProcessing (runUI st events) = true) /\
  (isProcessing (runUI st events) = true ->
   is_Some (processorRef (runUI st events))).
Proof.
  intros H1 H2. assert (H : flagsConsistent st) by (split; assumption).
  clear H1 H2. revert st H.
  induction events as [|e events IH]; intros st H; [exact H|].
  change (runUI st (e :: events)) with (runUI (stepUI st e) events).
  apply IH, flagsConsistent_stepUI, H.
Qed.

Lemma paused_only_while_processing_witness :
  (isPaused readyHome = true -> isProcessing readyHome = true) /\
  (isProcessing readyHome = true -> is_Some (processorRef readyHome)) /\
  (isPaused (runUI readyHome clicksAroundPause) = true ->
   isProcessing (runUI readyHome clicksAroundPause) = true) /\
  (isProcessing (runUI readyHome clicksAroundPause) = true ->
   is_Some (processorRef (runUI readyHome clicksAroundPause))).
Proof.
  assert (H1 : isPaused readyHome = true -> isProcessing readyHome = true)
    by (simpl; discriminate).
  assert (H2 : isProcessing readyHome = true -> is_Some (processorRef readyHome))
    by (simpl; discriminate).
  split; [exact H1|]. split; [exact H2|].
  exact (paused_only_while_processing readyHome clicksAroundPause H1 H2).
Defined.

(** Without the gating of the buttons the same page can be paused while it
    does not process. *)
Example pause_flag_without_gating :
  isPaused (run readyHome [PauseClick]) = true /\
  isProcessing (run readyHome [PauseClick]) = false /\
  runUI readyHome [PauseClick] = readyHome.
Proof. repeat split. Qed.

(** X5: whenever the Start button is on the page it is enabled, also while
    the page is processing or paused: its [disabled] condition is the
    negation of the condition under which it is rendered, so a click on it
    always reaches [startProcessing]. *)
Theorem start_button_is_never_disabled
    (st : Home) (available : option ImageData) :
  previewShown st = true ->
  startDisabled st = false /\
  stepUI st (StartClick available) = startProcessing available st.
Proof.
  intros Hshown. unfold stepUI, deliverable. rewrite Hshown.
  unfold previewShown, startDisabled in *.
  destruct (selectedFile st), (isCameraActive st); try discriminate; auto.
Qed.

Lemma start_button_is_never_disabled_witness :
  previewShown running = true /\
  isProcessing running = true /\
  startDisabled running = false /\
  stepUI running (StartClick (Some (frame 1))) =
    startProcessing (Some (frame 1)) running.
Proof.
  split; [reflexivity|]. split; [reflexivity|].
  exact (start_button_is_never_disabled running (Some (frame 1)) eq_refl).
Defined.

(** X6: a pause changes the [isPaused] flag and nothing else, at once and in
    everything that follows: after any further events the page is the one
    it would be without the pause, up to that flag; the same frames are
    submitted, the same batches and statistics published. *)
Theorem pause_changes_only_the_flag (st : Home) (events : list Event) :
  setIsPaused false (run (togglePause st) events) =
    setIsPaused false (run st events) /\
  detectCalls (run (togglePause st) events) = detectCalls (run st events) /\
  detections (run (togglePause st) events) = detections (run st events) /\
  stats (run (togglePause st) events) = stats (run st events) /\
  loops (run (togglePause st) events) = loops (run st events).
Proof.
  assert (H : setIsPaused false (run (togglePause st) events) =
              setIsPaused false (run st events))
    by (apply run_ignores_isPaused; reflexivity).
  split; [exact H|].
  repeat split.
  - change (detectCalls (setIsPaused false (run (togglePause st) events)) =
            detectCalls (setIsPaused false (run st events))). congruence.
  - change (detections (setIsPaused false (run (togglePause st) events)) =
            detections (setIsPaused false (run st events))). congruence.
  - change (stats (setIsPaused false (run (togglePause st) events)) =
            stats (setIsPaused false (run st events))). congruence.
  - change (loops (setIsPaused false (run (togglePause st) events)) =
            loops (setIsPaused false (run st events))). congruence.
Qed.

Lemma no_loop_alive ls i l :
  countLoops isAlive ls = 0%nat -> ls !! i = Some l -> l = Ended.
Proof.
  revert i. induction ls as [|l' ls IH]; intros i Hcount Hi; [discriminate|].
  rewrite countLoops_cons in Hcount.
  destruct i as [|i]; simpl in Hi.
  - injection Hi as ->. destruct l; simpl in Hcount; try lia. reflexivity.
  - apply (IH i); [lia|exact Hi].
Qed.

Lemma silent_step st e :
  alive st = 0%nat -> isStart e = false ->
  loops (step st e) = loops st /\
  detectCalls (step st e) = detectCalls st /\
  console (step st e) = console st.
Proof.
  intros Halive He.
  destruct e as [available| | | | |i available|i r now]; try discriminate; simpl.
  - handler_cases stopProcessing st.
  - auto.
  - handler_cases handleReset st.
  - handler_cases handleClearVideo st.
  - destruct (loops st !! i) as [l|] eqn:Hi; [|auto].
    rewrite (no_loop_alive _ _ _ Halive Hi). auto.
  - destruct (loops st !! i) as [l|] eqn:Hi; [|auto].
    rewrite (no_loop_alive _ _ _ Halive Hi). auto.
Qed.

(** X7: once every detect loop has ended, the pipeline is silent until the
    next [start()]: whatever else happens, no loop comes back to life, no
    frame is submitted and nothing is written to the console (so nothing is
    published and no error is caught). *)
Theorem ended_pipeline_stays_silent (st : Home) (events : list Event) :
  alive st = 0%nat ->
  Forall (fun e => isStart e = false) events ->
  loops (run st events) = loops st /\
  detectCalls (run st events) = detectCalls st /\
  console (run st events) = console st.
Proof.
  revert st. induction events as [|e events IH]; intros st Halive Hev; [auto|].
  inversion Hev as [|? ? He Hrest]; subst.
  change (run st (e :: events)) with (run (step st e) events).
  destruct (silent_step st e Halive He) as (Hl & Hc & Ho).
  destruct (IH (step st e)) as (Hl' & Hc' & Ho').
  - unfold alive in *. rewrite Hl. exact Halive.
  - exact Hrest.
  - repeat split; congruence.
Qed.

Lemma ended_pipeline_stays_silent_witness :
  alive (run readyHome stoppedAndSettled) = 0%nat /\
  Forall (fun e => isStart e = false) lateEvents /\
  loops (run (run readyHome stoppedAndSettled) lateEvents) =
    loops (run readyHome stoppedAndSettled) /\
  detectCalls (run (run readyHome stoppedAndSettled) lateEvents) =
    detectCalls (run readyHome stoppedAndSettled) /\
  console (run (run readyHome stoppedAndSettled) lateEvents) =
    console (run readyHome stoppedAndSettled).
Proof.
  assert (H1 : alive (run readyHome stoppedAndSettled) = 0%nat)
    by (vm_compute; reflexivity).
  assert (H2 : Forall (fun e => isStart e = false) lateEvents)
    by (repeat constructor).
  split; [exact H1|]. split; [exact H2|].
  exact (ended_pipeline_stays_silent (run readyHome stoppedAndSettled)
           lateEvents H1 H2).
Defined.

(** ** The overlay and the export name *)

(** X8: the overlay is never given an empty display: without a video
    element, and before the metadata of the video is loaded (a width or
    height of zero), it gets 640 and 480; otherwise the native size of the
    video.  Both numbers are positive in every case. *)
Theorem overlay_size_is_positive (current : option VideoElement.t) :
  (0 < overlayWidth current)%N /\ (0 < overlayHeight current)%N /\
  overlayWidth None = 640%N /\ overlayHeight None = 480%N /\
  match current with
  | Some v =>
      overlayWidth current =
        (if decide (VideoElement.videoWidth v = 0%N) then 640%N
         else VideoElement.videoWidth v) /\
      overlayHeight current =
        (if decide (VideoElement.videoHeight v = 0%N) then 480%N
         else VideoElement.videoHeight v)
  | None => True
  end.
Proof.
  unfold overlayWidth, overlayHeight.
  destruct current as [v|]; [|repeat split; lia].
  destruct (N.eqb_spec (VideoElement.videoWidth v) 0) as [Hw|Hw],
           (N.eqb_spec (VideoElement.videoHeight v) 0) as [Hh|Hh];
    repeat case_decide; try contradiction; repeat split; lia.
Qed.

Lemma length_append (a b : string) :
  String.length (a +:+ b) = (String.length a + String.length b)%nat.
Proof. induction a as [|c a IH]; simpl; [reflexivity|rewrite IH; reflexivity]. Qed.

Lemma append_suffix_inj (a b suffix : string) :
  a +:+ suffix = b +:+ suffix -> a = b.
Proof.
  intros H.
  assert (Hlen : String.length a = String.length b).
  { apply (f_equal String.length) in H.
    rewrite !length_append in H. lia. }
  revert b H Hlen. induction a as [|c a IH]; intros [|c' b] H Hlen;
    try discriminate; [reflexivity|].
  simpl in H, Hlen. injection H as -> H. f_equal. apply IH; [exact H|lia].
Qed.

(** X9: two exports get the same file name exactly when [Date.now()] gave
    the same millisecond for both: exports in different milliseconds never
    share a name. *)
Theorem export_names_differ_by_time
    (st : Home) (date date' now now' : Z) (file file' : ExportDoc.File) :
  handleExport date now st = Some file ->
  handleExport date' now' st = Some file' ->
  (ExportDoc.download file = ExportDoc.download file' <-> now = now').
Proof.
  unfold handleExport. destruct (processorRef st) as [p|]; [|discriminate].
  intros [= <-] [= <-]. cbn [ExportDoc.download]. split.
  - intros H. apply String.app_inj in H. apply append_suffix_inj in H.
    apply (inj pretty) in H. exact H.
  - intros ->. reflexivity.
Qed.

Lemma export_names_differ_by_time_witness :
  exists file file',
    handleExport 1709210096789 1709210096790 pausedInFlight = Some file /\
    handleExport 1709210096789 1709210096791 pausedInFlight = Some file' /\
    (ExportDoc.download file = ExportDoc.download file' <->
     1709210096790 = 1709210096791).
Proof.
  eexists. eexists.
  split; [reflexivity|]. split; [reflexivity|].
  exact (export_names_differ_by_time pausedInFlight 1709210096789
           1709210096789 1709210096790 1709210096791 _ _ eq_refl eq_refl).
Defined.

(** ** The theme toggle *)

(** The toggle only ever asks for [light] or [dark]: [light] when the
    current theme is [dark], and [dark] for every other current theme (a
    custom one, or none at all, which counts as [light]). *)
Lemma toggle_requests_light_or_dark (resolvedTheme theme : option string) :
  (ThemeToggle.currentTheme resolvedTheme theme = "dark"%string /\
   ThemeToggle.toggleTheme resolvedTheme theme = "light"%string) \/
  (ThemeToggle.currentTheme resolvedTheme theme <> "dark"%string /\
   ThemeToggle.toggleTheme resolvedTheme theme = "dark"%string).
Proof.
  unfold ThemeToggle.toggleTheme.
  destruct (String.eqb_spec (ThemeToggle.currentTheme resolvedTheme theme) "dark");
    auto.
Qed.

(** X10: the toggle goes by the resolved theme whenever there is one,
    whatever the stored theme says (so [system] is toggled by what it
    resolves to); only without a resolved theme does the stored theme
    count, and without either the current theme is [light]. *)
Theorem toggle_goes_by_resolved_theme
    (resolved : string) (theme theme' : option string) :
  resolved <> ""%string ->
  ThemeToggle.currentTheme (Some resolved) theme = resolved /\
  ThemeToggle.toggleTheme (Some resolved) theme =
    ThemeToggle.toggleTheme (Some resolved) theme' /\
  ThemeToggle.currentTheme None theme = ThemeToggle.currentTheme (Some "") theme /\
  ThemeToggle.currentTheme None None = "light"%string /\
  ThemeToggle.currentTheme None (Some "") = "light"%string.
Proof.
  intros Hr.
  assert (H : forall t, ThemeToggle.currentTheme (Some resolved) t = resolved).
  { intros t. unfold ThemeToggle.currentTheme, ThemeToggle.orElse at 1.
    unfold ThemeToggle.truthy.
    destruct (String.eqb_spec resolved "") as [->|_]; [contradiction|reflexivity]. }
  split; [apply H|]. split.
  - unfold ThemeToggle.toggleTheme. rewrite !H. reflexivity.
  - repeat split.
Qed.

Lemma toggle_goes_by_resolved_theme_witness :
  "dark"%string <> ""%string /\
  ThemeToggle.currentTheme (Some "dark"%string) (Some "system"%string) =
    "dark"%string /\
  ThemeToggle.toggleTheme (Some "dark"%string) (Some "system"%string) =
    ThemeToggle.toggleTheme (Some "dark"%string) None /\
  ThemeToggle.currentTheme None (Some "system"%string) =
    ThemeToggle.currentTheme (Some ""%string) (Some "system"%string) /\
  ThemeToggle.currentTheme None None = "light"%string /\
  ThemeToggle.currentTheme None (Some ""%string) = "light"%string.
Proof.
  assert (H : "dark"%string <> ""%string) by discriminate.
  split; [exact H|].
  exact (toggle_goes_by_resolved_theme "dark" (Some "system"%string) None H).
Defined.

(** X11: two toggles in a row, the theme asked for by the first being the
    resolved theme at the second, end on [dark] if the current theme was
    [dark] and on [light] otherwise: [light] and [dark] come back after two
    toggles, any other theme is left for [light]. *)
Theorem two_toggles (resolvedTheme theme theme' : option string) :
  ThemeToggle.toggleTheme
    (Some (ThemeToggle.toggleTheme resolvedTheme theme)) theme' =
    (if String.eqb (ThemeToggle.currentTheme resolvedTheme theme) "dark"
     then "dark" else "light")%string /\
  (ThemeToggle.currentTheme resolvedTheme theme = "light"%string \/
   ThemeToggle.currentTheme resolvedTheme theme = "dark"%string <->
   ThemeToggle.toggleTheme
     (Some (ThemeToggle.toggleTheme resolvedTheme theme)) theme' =
     ThemeToggle.currentTheme resolvedTheme theme).
Proof.
  assert (H : ThemeToggle.toggleTheme
                (Some (ThemeToggle.toggleTheme resolvedTheme theme)) theme' =
              (if String.eqb (ThemeToggle.currentTheme resolvedTheme theme) "dark"
               then "dark" else "light")%string).
  { unfold ThemeToggle.toggleTheme at 1 2.
    destruct (String.eqb_spec (ThemeToggle.currentTheme resolvedTheme theme)
                "dark"); reflexivity. }
  split; [exact H|]. rewrite H.
  destruct (String.eqb_spec (ThemeToggle.currentTheme resolvedTheme theme) "dark")
    as [Hd|Hd]; split.
  - intros _. symmetry. exact Hd.
  - auto.
  - intros [Hl|Hx]; [symmetry; exact Hl|contradiction].
  - intros Hl. left. symmetry. exact Hl.
Qed.

(** ** Video selection, camera and timers *)

Lemma commit_mounted s : videoRef (home (commit s)) = previewShown (home (commit s)).
Proof.
  unfold commit.
  destruct (previewShown (home s)) eqn:Hshown.
  - destruct (videoRef (home s)) eqn:Hv; [congruence|].
    simpl. unfold previewShown in *. simpl. auto.
  - simpl. unfold previewShown in *. simpl. auto.
Qed.

Lemma afterHandler_mounted before s :
  videoRef (home (afterHandler before s)) =
    previewShown (home (afterHandler before s)).
Proof.
  unfold afterHandler. pose proof (commit_mounted s) as H.
  destruct (Bool.eqb _ _); [exact H|].
  unfold cameraEffect. destruct (_ && _ && _); [|exact H].
  simpl. unfold previewShown in *. simpl. exact H.
Qed.

Lemma step_keeps_preview st e :
  e <> ClearVideoClick ->
  previewShown (step st e) = previewShown st /\
  videoRef (step st e) = videoRef st.
Proof.
  intros He. split; [|apply refs_step].
  assert (H : selectedFile (step st e) = selectedFile st /\
              isCameraActive (step st e) = isCameraActive st).
  { destruct e as [available| | | | |i available|i r now]; simpl.
    - unfold startProcessing.
      destruct (negb (detectorRef st) || negb (videoRef st)); [auto|].
      match goal with |- context [detectLoop_enter ?i ?a ?s] =>
        destruct (flags_eq _ _ (flags_enter i a s)) as (H1 & _ & _ & _ & H5 & _)
      end.
      rewrite H1, H5. auto.
    - unfold stopProcessing. simpl. destruct (processorRef st); auto.
    - auto.
    - unfold handleReset. simpl. destruct (processorRef st); auto.
    - contradiction.
    - destruct (loops st !! i) as [[| |]|]; auto.
      destruct (flags_eq _ _ (flags_enter i available st))
        as (H1 & _ & _ & _ & H5 & _). auto.
    - destruct (loops st !! i) as [[| |]|]; auto.
      destruct (flags_eq _ _ (flags_resume i r now st))
        as (H1 & _ & _ & _ & H5 & _). auto. }
  destruct H as [H1 H5]. unfold previewShown. rewrite H1, H5. reflexivity.
Qed.

(** A video element is mounted exactly while the preview is shown. *)
Lemma mounted_iff_shown_step s e :
  videoRef (home s) = previewShown (home s) ->
  videoRef (home (stageStep s e)) = previewShown (home (stageStep s e)).
Proof.
  intros H.
  destruct e as [| |err|file|stream| |k|fromEffect message|w h|e]; simpl;
    try apply afterHandler_mounted; try exact H.
  - unfold fireTimer. destruct (timers s !! k) as [[stream|]|]; [| |exact H].
    + simpl. destruct (videoRef (home s)) eqn:Hv; simpl;
        unfold previewShown in *; simpl; congruence.
    + simpl.
      destruct (videoRef (home s) && _); simpl;
        unfold previewShown in *; simpl; congruence.
  - unfold loadedMetadata. destruct (videoRef (home s)) eqn:Hv; [|congruence].
    simpl. unfold previewShown in *. simpl. congruence.
  - destruct e; try apply afterHandler_mounted; simpl; unfold stepUI;
      match goal with |- context [deliverable ?st ?ev] =>
        destruct (deliverable st ev); [|exact H];
        destruct (step_keeps_preview st ev) as [-> ->]; [discriminate|exact H]
      end.
Qed.

Lemma mounted_iff_shown events :
  videoRef (home (stageRun initialStage events)) =
    previewShown (home (stageRun initialStage events)).
Proof.
  assert (H : forall s, videoRef (home s) = previewShown (home s) ->
              videoRef (home (stageRun s events)) =
                previewShown (home (stageRun s events))).
  { induction events as [|e events IH]; intros s Hs; [exact Hs|].
    change (stageRun s (e :: events)) with (stageRun (stageStep s e) events).
    apply IH, mounted_iff_shown_step, Hs. }
  apply H. reflexivity.
Qed.

(** X12: a selected file becomes the source of the video only if the preview
    is already on the page when it is selected.  On a page that shows no
    preview (no file selected, camera off) there is no video element for
    [handleVideoSelect] to write to: the selection is recorded, the element
    is mounted by the render that follows, and its source stays empty. *)
Theorem selected_file_needs_mounted_video
    (events : list StageEvent) (file : string) :
  selectedFile
    (home (stageStep (stageRun initialStage events) (SelectVideo file))) =
    Some file /\
  videoRef
    (home (stageStep (stageRun initialStage events) (SelectVideo file))) =
    true /\
  VideoElement.src
    (element (stageStep (stageRun initialStage events) (SelectVideo file))) =
    (if previewShown (home (stageRun initialStage events))
     then ObjectURL file else EmptySource).
Proof.
  pose proof (mounted_iff_shown events) as Hm.
  destruct (stageRun initialStage events) as [h el sr st tm].
  cbn [home] in *. rewrite <- Hm. clear Hm.
  simpl. unfold afterHandler, handleVideoSelect, withVideo, commit. simpl.
  destruct (videoRef h) eqn:Hv; simpl; rewrite ?Hv, ?eqb_reflx; simpl; auto.
Qed.

Example first_selection_leaves_video_empty :
  VideoElement.src
    (element (stageRun initialStage [DetectorInitialized; SelectVideo "clip.mp4"])) =
    EmptySource /\
  VideoElement.src
    (element
       (stageRun initialStage
          [DetectorInitialized; SelectVideo "clip.mp4"; SelectVideo "clip.mp4"])) =
    ObjectURL "clip.mp4".
Proof. split; reflexivity. Qed.

Lemma polls_requeued (ts : list Timer) k t :
  ts !! k = Some t ->
  length (filter (fun t => isSetStreamToVideo t = true) (delete k ts ++ [t])) =
    length (filter (fun t => isSetStreamToVideo t = true) ts).
Proof.
  intros Hk. rewrite <- (take_drop_middle ts k t Hk) at 2.
  rewrite delete_take_drop, !filter_app, !length_app, !filter_cons, filter_nil.
  destruct (decide (isSetStreamToVideo t = true)); simpl; lia.
Qed.

Lemma polls_after_play (ts : list Timer) k :
  ts !! k = Some PlayVideo ->
  length (filter (fun t => isSetStreamToVideo t = true) (delete k ts)) =
    length (filter (fun t => isSetStreamToVideo t = true) ts).
Proof.
  intros Hk. rewrite <- (take_drop_middle ts k _ Hk) at 2.
  rewrite delete_take_drop, !filter_app, !length_app, filter_cons.
  rewrite decide_False by discriminate. reflexivity.
Qed.

Lemma poll_without_video s k :
  videoRef (home s) = false ->
  pendingPolls (fireTimer k s) = pendingPolls s /\
  element (fireTimer k s) = element s /\
  streamRef (fireTimer k s) = streamRef s /\
  videoRef (home (fireTimer k s)) = false /\
  error (home (fireTimer k s)) = error (home s).
Proof.
  intros Hv. unfold fireTimer, pendingPolls.
  destruct (timers s !! k) as [[stream|]|] eqn:Hk; [| |auto].
  - simpl. rewrite Hv. simpl. rewrite (polls_requeued _ _ _ Hk). auto.
  - simpl. rewrite Hv. simpl. rewrite (polls_after_play _ _ Hk). auto.
Qed.

(** X13: the poll for the video element never gives up and never attaches
    anything by itself: while no video element is mounted, however many
    timers come due, every poll of [handleCameraStart] that was pending is
    pending again, and the element, [streamRef] and the error stay as they
    are. *)
Theorem retry_keeps_polling (s : Stage) (events : list StageEvent) :
  videoRef (home s) = false ->
  Forall (fun e => isTimerFired e = true) events ->
  pendingPolls (stageRun s events) = pendingPolls s /\
  element (stageRun s events) = element s /\
  streamRef (stageRun s events) = streamRef s /\
  videoRef (home (stageRun s events)) = false /\
  error (home (stageRun s events)) = error (home s).
Proof.
  revert s. induction events as [|e events IH]; intros s Hv Hev; [auto|].
  inversion Hev as [|? ? He Hrest]; subst.
  change (stageRun s (e :: events)) with (stageRun (stageStep s e) events).
  destruct e; try discriminate. simpl.
  destruct (poll_without_video s k Hv) as (H1 & H2 & H3 & H4 & H5).
  destruct (IH (fireTimer k s) H4 Hrest) as (H1' & H2' & H3' & H4' & H5').
  repeat split; congruence.
Qed.

Lemma retry_keeps_polling_witness :
  videoRef (home (stageRun initialStage [CameraStart webcam; CameraStop])) =
    false /\
  Forall (fun e => isTimerFired e = true)
    [TimerFired 0; TimerFired 0; TimerFired 0] /\
  pendingPolls (stageRun initialStage [CameraStart webcam; CameraStop]) = 1%nat /\
  pendingPolls
    (stageRun (stageRun initialStage [CameraStart webcam; CameraStop])
       [TimerFired 0; TimerFired 0; TimerFired 0]) =
    pendingPolls (stageRun initialStage [CameraStart webcam; CameraStop]) /\
  element
    (stageRun (stageRun initialStage [CameraStart webcam; CameraStop])
       [TimerFired 0; TimerFired 0; TimerFired 0]) =
    element (stageRun initialStage [CameraStart webcam; CameraStop]) /\
  streamRef
    (stageRun (stageRun initialStage [CameraStart webcam; CameraStop])
       [TimerFired 0; TimerFired 0; TimerFired 0]) =
    streamRef (stageRun initialStage [CameraStart webcam; CameraStop]) /\
  videoRef
    (home
       (stageRun (stageRun initialStage [CameraStart webcam; CameraStop])
          [TimerFired 0; TimerFired 0; TimerFired 0])) = false /\
  error
    (home
       (stageRun (stageRun initialStage [CameraStart webcam; CameraStop])
          [TimerFired 0; TimerFired 0; TimerFired 0])) =
    error (home (stageRun initialStage [CameraStart webcam; CameraStop])).
Proof.
  assert (H1 : videoRef
                 (home (stageRun initialStage [CameraStart webcam; CameraStop])) =
               false) by reflexivity.
  assert (H2 : Forall (fun e => isTimerFired e = true)
                 [TimerFired 0; TimerFired 0; TimerFired 0])
    by (repeat constructor).
  split; [exact H1|]. split; [exact H2|]. split; [reflexivity|].
  exact (retry_keeps_polling
           (stageRun initialStage [CameraStart webcam; CameraStop])
           [TimerFired 0; TimerFired 0; TimerFired 0] H1 H2).
Defined.

(** X14: starting the camera attaches the stream.  On a page whose camera is
    off, right after [handleCameraStart] and the render that follows, the
    stream is in [streamRef] and on the mounted video element (the effect
    has set it and called play), the error is cleared and one poll is
    pending; when the poll and then its play timer have come due the stream
    is still attached, play has been called once more, and no timer of this
    start is left. *)
Theorem camera_start_attaches_stream (s : Stage) (stream : MediaStream) :
  isCameraActive (home s) = false ->
  streamRef (stageStep s (CameraStart stream)) = Some stream /\
  isCameraActive (home (stageStep s (CameraStart stream))) = true /\
  videoRef (home (stageStep s (CameraStart stream))) = true /\
  error (home (stageStep s (CameraStart stream))) = None /\
  VideoElement.srcObject (element (stageStep s (CameraStart stream))) =
    Some stream /\
  timers (stageStep s (CameraStart stream)) =
    timers s ++ [SetStreamToVideo stream] /\
  timers
    (stageRun (stageStep s (CameraStart stream))
       [TimerFired (length (timers s)); TimerFired (length (timers s))]) =
    timers s /\
  VideoElement.srcObject
    (element
       (stageRun (stageStep s (CameraStart stream))
          [TimerFired (length (timers s)); TimerFired (length (timers s))])) =
    Some stream /\
  VideoElement.playCalls
    (element
       (stageRun (stageStep s (CameraStart stream))
          [TimerFired (length (timers s)); TimerFired (length (timers s))])) =
    S (VideoElement.playCalls (element (stageStep s (CameraStart stream)))).
Proof.
  intros Hoff.
  destruct s as [h el sr st tm].
  destruct h as [sf ip pa ds ss er ca vr dr pro ls co dc]. simpl in Hoff. subst ca.
  assert (Hlast : forall t : Timer, (tm ++ [t]) !! length tm = Some t).
  { intros t. rewrite lookup_app_r by lia. rewrite Nat.sub_diag. reflexivity. }
  assert (Hdel : forall t : Timer, delete (length tm) (tm ++ [t]) = tm).
  { intros t. rewrite delete_middle. apply app_nil_r. }
  unfold stageRun. cbn [foldl].
  destruct vr, sf; lazy -[lookup delete app length];
    rewrite ?Hlast; lazy -[lookup delete app length];
    rewrite ?Hdel, ?Hlast; lazy -[lookup delete app length];
    rewrite ?Hdel; auto 10.
Qed.

Lemma camera_start_attaches_stream_witness :
  isCameraActive (home initialStage) = false /\
  streamRef (stageStep initialStage (CameraStart webcam)) = Some webcam /\
  isCameraActive (home (stageStep initialStage (CameraStart webcam))) = true /\
  videoRef (home (stageStep initialStage (CameraStart webcam))) = true /\
  error (home (stageStep initialStage (CameraStart webcam))) = None /\
  VideoElement.srcObject (element (stageStep initialStage (CameraStart webcam))) =
    Some webcam /\
  timers (stageStep initialStage (CameraStart webcam)) =
    timers initialStage ++ [SetStreamToVideo webcam] /\
  timers
    (stageRun (stageStep initialStage (CameraStart webcam))
       [TimerFired (length (timers initialStage));
        TimerFired (length (timers initialStage))]) =
    timers initialStage /\
  VideoElement.srcObject
    (element
       (stageRun (stageStep initialStage (CameraStart webcam))
          [TimerFired (length (timers initialStage));
           TimerFired (length (timers initialStage))])) =
    Some webcam /\
  VideoElement.playCalls
    (element
       (stageRun (stageStep initialStage (CameraStart webcam))
          [TimerFired (length (timers initialStage));
           TimerFired (length (timers initialStage))])) =
    S (VideoElement.playCalls
         (element (stageStep initialStage (CameraStart webcam)))).
Proof.
  split; [reflexivity|].
  exact (camera_start_attaches_stream initialStage webcam eq_refl).
Defined.

(** X15: stopping the camera releases it for good: every track of the
    stream is stopped, [streamRef] is empty, the camera is inactive and a
    video element that is still mounted has no stream attached; and a second
    stop changes nothing. *)
Theorem camera_stop_releases_stream (s : Stage) (stream : MediaStream) :
  streamRef s = Some stream ->
  Forall (fun t => t ∈ stoppedTracks (stageStep s CameraStop)) (trackIds stream) /\
  streamRef (stageStep s CameraStop) = None /\
  isCameraActive (home (stageStep s CameraStop)) = false /\
  (videoRef (home (stageStep s CameraStop)) = true ->
   VideoElement.srcObject (element (stageStep s CameraStop)) = None) /\
  stageStep (stageStep s CameraStop) CameraStop = stageStep s CameraStop.
Proof.
  intros Hstream.
  destruct s as [h el sr st tm]. simpl in Hstream. subst sr.
  destruct h as [sf ip pa ds ss er ca vr dr pro ls co dc].
  destruct el as [src so pc w hh].
  split.
  { apply Forall_forall. intros t Ht.
    assert (Hin : t ∈ st ∪ list_to_set (trackIds stream))
      by (apply elem_of_union_r, elem_of_list_to_set; exact Ht).
    destruct vr, sf, ca; exact Hin. }
  destruct vr, sf, ca;
    (split; [reflexivity|]; split; [reflexivity|]; split; [|reflexivity]);
    intros Hx; first [reflexivity | lazy in Hx; discriminate Hx].
Qed.

Lemma camera_stop_releases_stream_witness :
  streamRef (stageStep initialStage (CameraStart webcam)) = Some webcam /\
  Forall
    (fun t =>
       t ∈ stoppedTracks
             (stageStep (stageStep initialStage (CameraStart webcam)) CameraStop))
    (trackIds webcam) /\
  streamRef (stageStep (stageStep initialStage (CameraStart webcam)) CameraStop) =
    None /\
  isCameraActive
    (home (stageStep (stageStep initialStage (CameraStart webcam)) CameraStop)) =
    false /\
  (videoRef
     (home (stageStep (stageStep initialStage (CameraStart webcam)) CameraStop)) =
     true ->
   VideoElement.srcObject
     (element (stageStep (stageStep initialStage (CameraStart webcam)) CameraStop)) =
     None) /\
  stageStep
    (stageStep (stageStep initialStage (CameraStart webcam)) CameraStop)
    CameraStop =
    stageStep (stageStep initialStage (CameraStart webcam)) CameraStop.
Proof.
  split; [reflexivity|].
  exact (camera_stop_releases_stream
           (stageStep initialStage (CameraStart webcam)) webcam eq_refl).
Defined.

(** X16: stopping the camera does not cancel the poll of
    [handleCameraStart].  With a file selected, so that the video element
    stays mounted, a poll that was pending at the stop comes due afterwards
    and attaches its stream again: the camera is inactive, [streamRef] is
    empty, the tracks of the stream are stopped, and the stream is on the
    video element. *)
Theorem camera_stop_leaves_poll_pending
    (s : Stage) (stream : MediaStream) (k : nat) (file : string) :
  timers s !! k = Some (SetStreamToVideo stream) ->
  streamRef s = Some stream ->
  selectedFile (home s) = Some file ->
  videoRef (home s) = true ->
  timers (stageStep s CameraStop) = timers s /\
  isCameraActive (home (stageRun s [CameraStop; TimerFired k])) = false /\
  streamRef (stageRun s [CameraStop; TimerFired k]) = None /\
  Forall (fun t => t ∈ stoppedTracks (stageRun s [CameraStop; TimerFired k]))
    (trackIds stream) /\
  VideoElement.srcObject (element (stageRun s [CameraStop; TimerFired k])) =
    Some stream.
Proof.
  intros Hk Hstream Hfile Hv.
  destruct s as [h el sr st tm]. simpl in Hk, Hstream, Hfile, Hv. subst sr.
  destruct h as [sf ip pa ds ss er ca vr dr pro ls co dc].
  simpl in Hfile, Hv. subst sf vr.
  unfold stageRun. cbn [foldl].
  assert (Hstop : stageStep
            {| home := {| selectedFile := Some file; isProcessing := ip;
                          isPaused := pa; detections := ds; stats := ss;
                          error := er; isCameraActive := ca; videoRef := true;
                          detectorRef := dr; processorRef := pro; loops := ls;
                          console := co; detectCalls := dc |};
               element := el; streamRef := Some stream; stoppedTracks := st;
               timers := tm |} CameraStop =
          {| home := {| selectedFile := Some file; isProcessing := ip;
                        isPaused := pa; detections := ds; stats := ss;
                        error := er; isCameraActive := false; videoRef := true;
                        detectorRef := dr; processorRef := pro; loops := ls;
                        console := co; detectCalls := dc |};
             element := VideoElement.setSrcObject None el; streamRef := None;
             stoppedTracks := st ∪ list_to_set (trackIds stream);
             timers := tm |}).
  { destruct ca; reflexivity. }
  rewrite Hstop. split; [reflexivity|].
  cbn [stageStep]. unfold fireTimer. cbn [timers]. rewrite Hk. cbn.
  repeat split.
  apply Forall_forall. intros t Ht.
  apply elem_of_union_r, elem_of_list_to_set. exact Ht.
Qed.

Lemma camera_stop_leaves_poll_pending_witness :
  timers cameraOverFile !! 0%nat = Some (SetStreamToVideo webcam) /\
  streamRef cameraOverFile = Some webcam /\
  selectedFile (home cameraOverFile) = Some "clip.mp4"%string /\
  videoRef (home cameraOverFile) = true /\
  timers (stageStep cameraOverFile CameraStop) = timers cameraOverFile /\
  isCameraActive (home (stageRun cameraOverFile [CameraStop; TimerFired 0])) =
    false /\
  streamRef (stageRun cameraOverFile [CameraStop; TimerFired 0]) = None /\
  Forall
    (fun t => t ∈ stoppedTracks (stageRun cameraOverFile [CameraStop; TimerFired 0]))
    (trackIds webcam) /\
  VideoElement.srcObject
    (element (stageRun cameraOverFile [CameraStop; TimerFired 0])) =
    Some webcam.
Proof.
  split; [reflexivity|]. split; [reflexivity|]. split; [reflexivity|].
  split; [reflexivity|].
  exact (camera_stop_leaves_poll_pending cameraOverFile webcam 0 "clip.mp4"
           eq_refl eq_refl eq_refl eq_refl).
Defined.

(** X17: a failed initialisation of the detector is easily forgotten.  The
    failure sets the error and leaves [detectorRef] empty; selecting a
    video clears the error although nothing has been initialised; and from
    then on a click on Start, which is enabled, does nothing at all and
    reports nothing. *)
Theorem failed_initialisation_is_forgotten
    (s : Stage) (err file : string) (available : option ImageData) :
  detectorRef (home s) = false ->
  error (home (stageStep s (DetectorFailed err))) =
    Some "Failed to initialize AI detector. Please check that the model file is available."%string /\
  error (home (stageRun s [DetectorFailed err; SelectVideo file])) = None /\
  detectorRef (home (stageRun s [DetectorFailed err; SelectVideo file])) = false /\
  deliverable (home (stageRun s [DetectorFailed err; SelectVideo file]))
    (StartClick available) = true /\
  stageStep (stageRun s [DetectorFailed err; SelectVideo file])
    (Page (StartClick available)) =
    stageRun s [DetectorFailed err; SelectVideo file].
Proof.
  intros Hd.
  destruct s as [h el sr st tm].
  destruct h as [sf ip pa ds ss er ca vr dr pro ls co dc].
  simpl in Hd. subst dr.
  split; [reflexivity|].
  unfold stageRun. cbn [foldl].
  destruct vr, ca;
    (split; [reflexivity|]); (split; [reflexivity|]); (split; [reflexivity|]);
    reflexivity.
Qed.

Lemma failed_initialisation_is_forgotten_witness :
  detectorRef (home initialStage) = false /\
  error (home (stageStep initialStage (DetectorFailed "no model"))) =
    Some "Failed to initialize AI detector. Please check that the model file is available."%string /\
  error
    (home (stageRun initialStage [DetectorFailed "no model"; SelectVideo "clip.mp4"])) =
    None /\
  detectorRef
    (home (stageRun initialStage [DetectorFailed "no model"; SelectVideo "clip.mp4"])) =
    false /\
  deliverable
    (home (stageRun initialStage [DetectorFailed "no model"; SelectVideo "clip.mp4"]))
    (StartClick (Some (frame 0))) = true /\
  stageStep
    (stageRun initialStage [DetectorFailed "no model"; SelectVideo "clip.mp4"])
    (Page (StartClick (Some (frame 0)))) =
    stageRun initialStage [DetectorFailed "no model"; SelectVideo "clip.mp4"].
Proof.
  split; [reflexivity|].
  exact (failed_initialisation_is_forgotten initialStage "no model" "clip.mp4"
           (Some (frame 0)) eq_refl).
Defined.

(** X18: clearing the video does not stop the pipeline.  With the camera
    off, the page after [handleClearVideo] is processing (and paused) as it
    was and its detect loops are as they were, but the preview is gone, and
    with it the video element and the Start, Pause and Stop buttons: none of
    their clicks can be delivered any more. *)
Theorem clear_video_hides_controls (s : Stage) (available : option ImageData) :
  isCameraActive (home s) = false ->
  isProcessing (home (stageStep s (Page ClearVideoClick))) =
    isProcessing (home s) /\
  isPaused (home (stageStep s (Page ClearVideoClick))) = isPaused (home s) /\
  loops (home (stageStep s (Page ClearVideoClick))) = loops (home s) /\
  videoRef (home (stageStep s (Page ClearVideoClick))) = false /\
  deliverable (home (stageStep s (Page ClearVideoClick))) StopClick = false /\
  deliverable (home (stageStep s (Page ClearVideoClick))) PauseClick = false /\
  deliverable (home (stageStep s (Page ClearVideoClick))) (StartClick available) =
    false.
Proof.
  intros Hoff.
  destruct s as [h el sr st tm].
  destruct h as [sf ip pa ds ss er ca vr dr pro ls co dc].
  simpl in Hoff. subst ca.
  destruct vr, pro; (repeat (split; [reflexivity|])); reflexivity.
Qed.

Lemma clear_video_hides_controls_witness :
  isCameraActive (home processingFile) = false /\
  isProcessing (home processingFile) = true /\
  alive (home processingFile) = 1%nat /\
  isProcessing (home (stageStep processingFile (Page ClearVideoClick))) =
    isProcessing (home processingFile) /\
  isPaused (home (stageStep processingFile (Page ClearVideoClick))) =
    isPaused (home processingFile) /\
  loops (home (stageStep processingFile (Page ClearVideoClick))) =
    loops (home processingFile) /\
  videoRef (home (stageStep processingFile (Page ClearVideoClick))) = false /\
  deliverable (home (stageStep processingFile (Page ClearVideoClick))) StopClick =
    false /\
  deliverable (home (stageStep processingFile (Page ClearVideoClick))) PauseClick =
    false /\
  deliverable (home (stageStep processingFile (Page ClearVideoClick)))
    (StartClick (Some (frame 1))) = false.
Proof.
  split; [reflexivity|]. split; [reflexivity|]. split; [reflexivity|].
  exact (clear_video_hides_controls processingFile (Some (frame 1)) eq_refl).
Defined.

